(** * django-fsspec: the overlay and the routing filesystem

    A shallow embedding of [src/django_fsspec/transparent_fs.py]
    ([TransparentFileSystem], the overlay of a writable delta layer over a
    base layer) and of [src/django_fsspec/nested_fs.py] ([NestedFileSystem],
    the router over several mounts), with the properties of the
    specification stated and settled against them.

    Layout: Part I holds the definitions (Python values and exceptions, the
    string primitives the code uses, the backing-filesystem interface, the
    two filesystems and a small in-memory filesystem to run them on);
    Part II holds the lemmas and theorems. *)

From Stdlib Require Import ZArith Lia Ascii.
From stdpp Require Import base list strings.

Set Default Proof Using "Type".
Local Open Scope Z_scope.

(* ===================================================================== *)
(** * Part I: definitions *)
(* ===================================================================== *)

(** ** Python values, exceptions and results *)

(** The exceptions the two modules raise themselves or provoke in the
    interpreter, and [BackendError] for whatever a backing filesystem
    raises on its own. *)
Inductive exn :=
  | KeyError (key : string)
  | ValueError (msg : string)
  | TypeError (msg : string)
  | AttributeError (msg : string)
  | FileNotFoundError (path : string)
  | FileExistsError (path : string)
  | NotImplementedError (msg : string)
  | BackendError (msg : string).

Inductive result (A : Type) :=
  | Ok (a : A)
  | Raise (e : exn).
Arguments Ok {A} a.
Arguments Raise {A} e.

(** The dynamically typed values that cross the interfaces: listing items
    are either bare names ([VStr]) or metadata dictionaries ([VDict], an
    insertion-ordered list of key/value pairs); [VFs] is a reference to a
    filesystem object, named by its mount key. *)
#[warnings="-register-all"]
Inductive pyval :=
  | VNone
  | VBool (b : bool)
  | VInt (z : Z)
  | VStr (s : string)
  | VList (l : list pyval)
  | VDict (d : list (string * pyval))
  | VFs (key : string).

(** State-and-exception monad: a method runs on the state [S] of the
    filesystem object, may change it, and returns or raises.  The state
    reached when an exception is raised is kept. *)
Definition M (S A : Type) : Type := S -> S * result A.

Definition ret {S A} (a : A) : M S A := fun s => (s, Ok a).
Definition raise {S A} (e : exn) : M S A := fun s => (s, Raise e).
Definition bind {S A B} (m : M S A) (k : A -> M S B) : M S B :=
  fun s => match m s with
           | (s', Ok a) => k a s'
           | (s', Raise e) => (s', Raise e)
           end.
Definition lift {S A} (r : result A) : M S A := fun s => (s, r).
Definition gets {S A} (f : S -> A) : M S A := fun s => (s, Ok (f s)).

Notation "'let*' x := m 'in' k" := (bind m (fun x => k))
  (at level 10, x name, m at level 100, k at level 200).
Notation "'let*' ' pat := m 'in' k" := (bind m (fun x => match x with pat => k end))
  (at level 10, pat pattern, m at level 100, k at level 200).
Notation "m ;; k" := (bind m (fun _ => k))
  (at level 100, k at level 200, right associativity).

(** ** String primitives of Python used by the code *)

Module Py.

Definition slash : ascii := "/"%char.

(** [s.split("/")]: one more piece than there are separators. *)
Fixpoint split (s : string) : list string :=
  match s with
  | EmptyString => [""]
  | String c r =>
      if Ascii.eqb c slash then "" :: split r
      else match split r with
           | h :: t => String c h :: t
           | [] => [String c ""]
           end
  end.

(** ["/".join(l)] *)
Fixpoint join (l : list string) : string :=
  match l with
  | [] => ""
  | [x] => x
  | x :: rest => x +:+ String slash (join rest)
  end.

(** [s.split("/", 1)]: at most one cut, at the first separator. *)
Fixpoint split1 (s : string) : list string :=
  match s with
  | EmptyString => [""]
  | String c r =>
      if Ascii.eqb c slash then [""; r]
      else match split1 r with
           | [h] => [String c h]
           | h :: t => String c h :: t
           | [] => [String c ""]
           end
  end.

(** [s.endswith(suffix)] *)
Definition endswith (s suffix : string) : bool :=
  let n := String.length s in
  let k := String.length suffix in
  (k <=? n)%nat && String.eqb (String.substring (n - k) k s) suffix.

(** [s[:-k]] for [k > 0]: the string without its last [k] characters
    (empty when it has no more than [k]). *)
Definition drop_last (k : nat) (s : string) : string :=
  String.substring 0 (String.length s - k) s.

(** [c in s] for a one-character string [c]. *)
Fixpoint contains (c : ascii) (s : string) : bool :=
  match s with
  | EmptyString => false
  | String c' r => Ascii.eqb c c' || contains c r
  end.

(** Iterating over a string yields its characters as strings. *)
Fixpoint chars (s : string) : list string :=
  match s with
  | EmptyString => []
  | String c r => String c "" :: chars r
  end.

(** The length of a join, counted with one separator per piece. *)
Fixpoint weight (l : list string) : nat :=
  match l with
  | [] => 0%nat
  | x :: rest => S (String.length x + weight rest)
  end.

(** The first [/]-separated segment of a path. *)
Definition first_segment (s : string) : string := hd "" (split s).

(** Insertion-ordered dictionaries with string keys. *)
Definition dict := list (string * pyval).

Fixpoint dict_get (d : dict) (k : string) : option pyval :=
  match d with
  | [] => None
  | (k', v) :: rest => if String.eqb k' k then Some v else dict_get rest k
  end.

(** [d[k] = v]: a present key keeps its position, a new one goes last. *)
Fixpoint dict_set (d : dict) (k : string) (v : pyval) : dict :=
  match d with
  | [] => [(k, v)]
  | (k', v') :: rest =>
      if String.eqb k' k then (k', v) :: rest else (k', v') :: dict_set rest k v
  end.

(** [del d[k]]: [KeyError] when the key is absent. *)
Definition dict_del (d : dict) (k : string) : result dict :=
  match dict_get d k with
  | None => Raise (KeyError k)
  | Some _ => Ok (List.filter (fun kv => negb (String.eqb (fst kv) k)) d)
  end.

Definition dict_keys (d : dict) : list string := map fst d.
Definition dict_values (d : dict) : list pyval := map snd d.

(** [a, b, c = v]: iterable unpacking into exactly three targets. *)
Definition iterate (v : pyval) : result (list pyval) :=
  match v with
  | VStr s => Ok (map VStr (chars s))
  | VList l => Ok l
  | VDict d => Ok (map VStr (dict_keys d))
  | _ => Raise (TypeError "cannot unpack non-iterable object")
  end.

Definition unpack3 (t : list pyval) : result (pyval * pyval * pyval) :=
  match t with
  | [a; b; c] => Ok (a, b, c)
  | _ :: _ :: _ :: _ :: _ => Raise (ValueError "too many values to unpack (expected 3)")
  | _ => Raise (ValueError "not enough values to unpack (expected 3)")
  end.

Definition unpack2 (t : list pyval) : result (pyval * pyval) :=
  match t with
  | [a; b] => Ok (a, b)
  | _ :: _ :: _ :: _ => Raise (ValueError "too many values to unpack (expected 2)")
  | _ => Raise (ValueError "not enough values to unpack (expected 2)")
  end.

End Py.

(** ** The backing-filesystem interface

    What the two modules call on an [fsspec.AbstractFileSystem].  Queries
    are functions of the filesystem state; commands return the new state
    together with their outcome. *)
Class FileSystem (FS : Type) := {
  fs_exists : FS -> string -> bool;
  fs_lexists : FS -> string -> bool;
  fs_isdir : FS -> string -> bool;
  fs_isfile : FS -> string -> bool;
  (** [ls(path, detail=...)]; [None] when the caller leaves [detail] to the
      backing filesystem's default. *)
  fs_ls : FS -> string -> option bool -> result (list pyval);
  (** [walk(path, maxdepth=...)], the finite sequence it produces. *)
  fs_walk : FS -> string -> option Z -> list (string * list string * list string);
  fs_read_text : FS -> string -> result string;
  (** [with open(path, "rb") as f: f.read()] *)
  fs_read : FS -> string -> result string;
  (** [with open(path, mode) as f: f.write(content)] *)
  fs_write : FS -> string -> string -> string -> FS * result unit;
  fs_touch : FS -> string -> FS * result unit;
  fs_mkdirs : FS -> string -> bool -> FS * result unit;
  fs_rmdir : FS -> string -> FS * result unit;
  fs_rm_file : FS -> string -> FS * result unit;
  fs_rm : FS -> string -> bool -> option Z -> FS * result unit;
  fs_cp_file : FS -> string -> string -> FS * result unit;
  fs_mv : FS -> string -> string -> FS * result unit;
  (** [get_file(rpath)], called with the remote path alone. *)
  fs_get_file1 : FS -> string -> result pyval;
  (** [put_file(lpath, rpath)] *)
  fs_put_file : FS -> pyval -> string -> FS * result unit;
}.

(** The part of the filesystem contract the round-trip property rests on:
    a file written successfully exists and reads back as written. *)
Class FileSystemLaws (FS : Type) `{FileSystem FS} := {
  fs_write_exists : forall d p c d',
    fs_write d p "w" c = (d', Ok tt) -> fs_exists d' p = true;
  fs_write_read : forall d p c d',
    fs_write d p "w" c = (d', Ok tt) -> fs_read_text d' p = Ok c;
}.

(** ** The overlay: [TransparentFileSystem] *)

Module Transparent.

(** [ExistsReturn]: [where] is 0 for the transparent (delta) layer and 1
    for the base layer; [modification] is 0 (none), 1 (deleted) or
    2 (replaced); [path] is the last path looked at. *)
Record ExistsReturn := {
  er_exists : bool;
  er_where : Z;
  er_modification : Z;
  er_path : string;
}.

(** The two layers.  They are two filesystem instances with a state of
    their own each, so that [fs == self.transparent_fs], for [fs] one of
    the two, holds exactly when [fs] is the transparent layer. *)
Inductive layer := Delta | Base.

Definition layer_eqb (a b : layer) : bool :=
  match a, b with
  | Delta, Delta | Base, Base => true
  | _, _ => false
  end.

Record overlay (FS : Type) := {
  transparent_fs : FS;
  base_fs : FS;
}.
Arguments transparent_fs {FS} _.
Arguments base_fs {FS} _.

Section Methods.
Context {FS : Type} `{FileSystem FS}.

(** [str(Path(path).parent)], from Python's [pathlib]. *)
Variable parent_of : string -> string.

Definition get_layer (l : layer) (w : overlay FS) : FS :=
  match l with Delta => transparent_fs w | Base => base_fs w end.

(** Run a command of the backing interface on one layer. *)
Definition on_layer {A} (l : layer) (f : FS -> FS * result A) : M (overlay FS) A :=
  fun w =>
    match l with
    | Delta => let '(d, r) := f (transparent_fs w) in
               ({| transparent_fs := d; base_fs := base_fs w |}, r)
    | Base => let '(b, r) := f (base_fs w) in
              ({| transparent_fs := transparent_fs w; base_fs := b |}, r)
    end.

Definition _get_path_tree (path : string) : list string :=
  let split_path := Py.split path in
  map (fun i => Py.join (take i split_path)) (seq 1 (length split_path)).

(** The [for pt in ...] loop of [_check_exists_and_where] with its two
    local variables, and the two returns after the loop. *)
Fixpoint check_loop (w : overlay FS) (path : string) (pts : list string)
    (check_base_fs : bool) (modification : Z) : ExistsReturn :=
  match pts with
  | [] =>
      if check_base_fs
      then {| er_exists := fs_exists (base_fs w) path; er_where := 1;
              er_modification := modification; er_path := path |}
      else {| er_exists := false; er_where := 0;
              er_modification := modification; er_path := path |}
  | pt :: rest =>
      if fs_exists (transparent_fs w) pt then
        if String.eqb pt path
        then {| er_exists := true; er_where := 0;
                er_modification := 0; er_path := pt |}
        else check_loop w path rest check_base_fs modification
      else if fs_exists (transparent_fs w) (pt +:+ ".deleted") then
        {| er_exists := false; er_where := 0;
           er_modification := 1; er_path := pt |}
      else if fs_exists (transparent_fs w) (pt +:+ ".replaced") then
        check_loop w path rest false 2
      else check_loop w path rest check_base_fs modification
  end.

Definition _check_exists_and_where (w : overlay FS) (path : string) : ExistsReturn :=
  check_loop w path (_get_path_tree path) true 0.

Definition exists_ (w : overlay FS) (path : string) : bool :=
  er_exists (_check_exists_and_where w path).

Definition isdir (w : overlay FS) (path : string) : bool :=
  let out := _check_exists_and_where w path in
  if negb (er_exists out) then false
  else if er_where out =? 0 then fs_isdir (transparent_fs w) path
  else fs_isdir (base_fs w) path.

Definition isfile (w : overlay FS) (path : string) : bool :=
  let out := _check_exists_and_where w path in
  if negb (er_exists out) then false
  else if er_where out =? 0 then fs_isfile (transparent_fs w) path
  else fs_isfile (base_fs w) path.

Definition __leading_fs (w : overlay FS) (path : string) : layer :=
  let ex := _check_exists_and_where w path in
  if negb (er_exists ex) then Delta
  else if er_where ex =? 0 then Delta
  else Base.

Definition read_text (path : string) : M (overlay FS) string :=
  let* fs := gets (fun w => __leading_fs w path) in
  let* w := gets id in
  lift (fs_read_text (get_layer fs w) path).

(** The synthetic entry [ls] puts in place of a [.replaced] marker. *)
Definition replaced_entry (name : string) : pyval :=
  VDict [("name", VStr name); ("type", VStr "directory"); ("size", VInt 0);
         ("created", VInt 0); ("modified", VInt 0)].

(** [item["name"]] used as a dictionary key; the names of a listing are
    strings. *)
Definition item_name (item : pyval) : result string :=
  match item with
  | VDict d =>
      match Py.dict_get d "name" with
      | Some (VStr n) => Ok n
      | Some _ => Raise (TypeError "name is not a string")
      | None => Raise (KeyError "name")
      end
  | VStr _ => Raise (TypeError "string indices must be integers")
  | _ => Raise (TypeError "object is not subscriptable")
  end.

(** The dictionary comprehension over the base listing. *)
Fixpoint ls_base_dict (items : list pyval) (out : Py.dict) : result Py.dict :=
  match items with
  | [] => Ok out
  | item :: rest =>
      match item_name item with
      | Ok n => ls_base_dict rest (Py.dict_set out n item)
      | Raise e => Raise e
      end
  end.

(** The loop over the listing of the transparent layer. *)
Fixpoint ls_overlay (items : list pyval) (out : Py.dict) : result Py.dict :=
  match items with
  | [] => Ok out
  | item :: rest =>
      match item with
      | VStr name =>
          if Py.endswith name ".deleted" then
            match Py.dict_del out (Py.drop_last 8 name) with
            | Ok out' => ls_overlay rest out'
            | Raise e => Raise e
            end
          else if Py.endswith name ".replaced" then
            ls_overlay rest
              (Py.dict_set out (Py.drop_last 9 name)
                 (replaced_entry (Py.drop_last 9 name)))
          else ls_overlay rest (Py.dict_set out name item)
      | _ => Raise (AttributeError "object has no attribute 'endswith'")
      end
  end.

Definition ls (w : overlay FS) (path : string) (detail : bool) : result (list pyval) :=
  match fs_ls (base_fs w) path (Some detail) with
  | Raise e => Raise e
  | Ok base_items =>
      match ls_base_dict base_items [] with
      | Raise e => Raise e
      | Ok out =>
          match fs_ls (transparent_fs w) path (Some detail) with
          | Raise e => Raise e
          | Ok delta_items =>
              match ls_overlay delta_items out with
              | Raise e => Raise e
              | Ok out' => Ok (Py.dict_values out')
              end
          end
      end
  end.

Definition cp_file (path1 path2 : string) : M (overlay FS) unit :=
  let* fs := gets (fun w => __leading_fs w path1) in
  if layer_eqb fs Delta then
    on_layer Delta (fun d => fs_cp_file d path1 path2)
  else
    let* w := gets id in
    let* content := lift (fs_read (get_layer fs w) path1) in
    on_layer Delta (fun d => fs_write d path2 "wb" content).

Definition rm_file (path : string) : M (overlay FS) pyval :=
  let* fs := gets (fun w => __leading_fs w path) in
  if layer_eqb fs Delta then
    on_layer Delta (fun d => fs_rm_file d path) ;; ret VNone
  else
    on_layer Delta (fun d => fs_touch d (path +:+ ".deleted")) ;;
    ret (VBool true).

Definition __get_fs_for_open (path method : string) : M (overlay FS) (option layer) :=
  let parent := parent_of path in
  if Py.contains "w" method then
    on_layer Delta (fun d => fs_mkdirs d parent true) ;;
    ret (Some Delta)
  else if Py.contains "a" method then
    let* w := gets id in
    if fs_exists (transparent_fs w) (path +:+ ".deleted") then
      on_layer Delta (fun d => fs_rm d (path +:+ ".deleted") false None) ;;
      ret (Some Delta)
    else
      let ex := _check_exists_and_where w path in
      (if er_exists ex && (er_where ex =? 1) then
         on_layer Delta (fun d => fs_mkdirs d parent true) ;;
         cp_file path path
       else ret tt) ;;
      ret (Some Delta)
  else if Py.contains "r" method then
    let* fs := gets (fun w => __leading_fs w path) in
    ret (Some fs)
  else ret None.

(** What [fs.open(path, method)] hands back: the layer that serves the
    stream, with the path and the mode it was opened with. *)
Record handle := {
  h_layer : layer;
  h_path : string;
  h_mode : string;
}.

Definition open (path method : string) : M (overlay FS) handle :=
  let* fs := __get_fs_for_open path method in
  match fs with
  | Some l => ret {| h_layer := l; h_path := path; h_mode := method |}
  | None => raise (AttributeError "'NoneType' object has no attribute 'open'")
  end.

(** [with <handle> as f: f.write(content)] *)
Definition write (h : handle) (content : string) : M (overlay FS) unit :=
  on_layer (h_layer h) (fun d => fs_write d (h_path h) (h_mode h) content).

(** Attribute lookup on [self].  [instance_names] are set by
    [__init__], [class_names] are the names bound in the body of
    [class TransparentFileSystem] (private [__x] names mangled), and
    the base class [fsspec.AbstractFileSystem] contributes the names
    it defines (it has no [__getattr__] hook). *)
Definition instance_names : list string := ["transparent_fs"; "base_fs"].

Definition class_names : list string :=
  ["protocol"; "__init__"; "_get_path_tree"; "_check_exists_and_where";
   "exists"; "isdir"; "isfile"; "_TransparentFileSystem__pre_mkdir";
   "mkdir"; "makedirs"; "rmdir"; "ls"; "walk";
   "_TransparentFileSystem__leading_fs"; "lexists"; "checksum"; "size";
   "read_text"; "write_text"; "cat_file"; "pipe_file"; "pipe"; "cat";
   "get_file"; "get"; "put_file"; "put"; "head"; "tail"; "cp_file"; "mv";
   "rm_file"; "rm"; "_TransparentFileSystem__get_fs_for_open"; "_open";
   "open"; "touch"; "ukey"; "read_block"; "clear_instance_cache";
   "created"; "modified"].

(** The base class: the names it defines and, should it define one,
    what its [_get_filesystem] answers. *)
Record base_class := {
  bc_names : list string;
  bc_get_filesystem : string -> result pyval;
}.

Definition hasattr_self (bc : base_class) (name : string) : bool :=
  existsb (String.eqb name) (instance_names ++ class_names ++ bc_names bc).

Definition layer_of_key (key : string) : option layer :=
  if String.eqb key "transparent_fs" then Some Delta
  else if String.eqb key "base_fs" then Some Base
  else None.

(** The class body has no [_get_filesystem], so a lookup that succeeds
    finds the base class's. *)
Definition lexists (bc : base_class) (path : string) : M (overlay FS) pyval :=
  if negb (hasattr_self bc "_get_filesystem") then
    raise (AttributeError
      "'TransparentFileSystem' object has no attribute '_get_filesystem'")
  else
    let* r := lift (bc_get_filesystem bc path) in
    let* t := lift (Py.iterate r) in
    let* '(fs, root_path, nested_path) := lift (Py.unpack3 t) in
    match fs, nested_path with
    | VNone, _ => ret (VBool false)
    | VFs key, VStr np =>
        match layer_of_key key with
        | Some l => gets (fun w => VBool (fs_lexists (get_layer l w) np))
        | None => raise (AttributeError "object has no attribute 'lexists'")
        end
    | _, _ => raise (AttributeError "object has no attribute 'lexists'")
    end.

(** A method that leaves the state of the base layer as it found it,
    whether it returns or raises. *)
Definition preserves_base {A} (m : M (overlay FS) A) : Prop :=
  forall w, base_fs (fst (m w)) = base_fs w.

End Methods.

End Transparent.

(** ** The router: [NestedFileSystem] *)

Module Nested.

Section Methods.
Context {FS : Type} `{FileSystem FS}.

(** [self.file_systems]: the mount table, a dictionary from mount key
    to backing filesystem.  The mounts are distinct instances, each
    with a state of its own, and a filesystem object is referred to by
    its key. *)
Definition mounts : Type := list (string * FS).

Fixpoint lookup_fs (fss : mounts) (key : string) : option FS :=
  match fss with
  | [] => None
  | (k, fs) :: rest => if String.eqb k key then Some fs else lookup_fs rest key
  end.

Fixpoint update_fs (fss : mounts) (key : string) (fs' : FS) : mounts :=
  match fss with
  | [] => []
  | (k, fs) :: rest =>
      if String.eqb k key then (k, fs') :: rest
      else (k, fs) :: update_fs rest key fs'
  end.

(** [key in self.file_systems] *)
Definition has_key (fss : mounts) (key : string) : bool :=
  match lookup_fs fss key with Some _ => true | None => false end.

(** Run a command of the backing interface on the mount [key]. *)
Definition on_mount {A} (key : string) (f : FS -> FS * result A) : M mounts A :=
  fun fss =>
    match lookup_fs fss key with
    | Some fs => let '(fs', r) := f fs in (update_fs fss key fs', r)
    | None => (fss, Raise (KeyError key))
    end.

(** Run a query of the backing interface on the mount [key]. *)
Definition ask_mount {A} (key : string) (f : FS -> A) : M mounts A :=
  fun fss =>
    match lookup_fs fss key with
    | Some fs => (fss, Ok (f fs))
    | None => (fss, Raise (KeyError key))
    end.

(** [self.file_systems[key]] *)
Definition subscript (fss : mounts) (key : string) : result string :=
  if has_key fss key then Ok key else Raise (KeyError key).

(** Returns the mount (by key), the root path and the nested path.
    [root_path] is [None] for a path without separator that is no
    mount key, and [None in self.file_systems] is false. *)
Definition _get_filesystem (fss : mounts) (path : string)
    : result (string * string * string) :=
  let default := match subscript fss "default" with
                 | Ok fs => Ok (fs, "", path)
                 | Raise e => Raise e
                 end in
  let lookup (root_path : option string) (nested_path : string) :=
    match root_path with
    | Some rp => if has_key fss rp then Ok (rp, rp, nested_path) else default
    | None => default
    end in
  match Py.split1 path with
  | [part] =>
      if has_key fss path then Ok (path, path, "")
      else lookup None part
  | [root_path; nested_path] => lookup (Some root_path) nested_path
  | _ => Raise (ValueError "too many values to unpack (expected 2)")
  end.

Definition resolve (path : string) : M mounts (string * string * string) :=
  fun fss => (fss, _get_filesystem fss path).

(** The returned tuple as the interpreter sees it. *)
Definition as_tuple (t : string * string * string) : list pyval :=
  let '(fs, root_path, nested_path) := t in
  [VFs fs; VStr root_path; VStr nested_path].

(** In the methods below [fs] is an entry of the mount table, never
    [None]: the [if fs is None] guards of the source do not fire. *)

Definition exists_ (path : string) : M mounts bool :=
  let* '(fs, root_path, nested_path) := resolve path in
  ask_mount fs (fun s => fs_exists s nested_path).

Definition rmdir (path : string) : M mounts unit :=
  if String.eqb path "" then raise (ValueError "Cannot remove root path")
  else
    let* '(fs, root_path, nested_path) := resolve path in
    on_mount fs (fun s => fs_rmdir s nested_path).

Definition rm (path : string) (recursive : bool) (maxdepth : option Z)
    : M mounts unit :=
  let* '(fs, root_path, nested_path) := resolve path in
  let maxdepth :=
    match maxdepth with
    | Some n =>
        if negb (String.eqb root_path "")
        then Some (n - Z.of_nat (length (Py.split root_path)))
        else Some n
    | None => None
    end in
  on_mount fs (fun s => fs_rm s nested_path recursive maxdepth).

(** Method calls on values whose type is only known at run time. *)
Definition with_fs {A} (v : pyval) (k : string -> M mounts A) : M mounts A :=
  match v with
  | VFs key => k key
  | _ => raise (AttributeError "'str' object has no such attribute")
  end.

Definition as_path (v : pyval) : result string :=
  match v with
  | VStr s => Ok s
  | _ => Raise (TypeError "expected str, bytes or os.PathLike object")
  end.

(** [fs1 == fs2] *)
Definition same_fs (a b : pyval) : bool :=
  match a, b with
  | VFs k1, VFs k2 => String.eqb k1 k2
  | _, _ => false
  end.

Definition cp_file (path1 path2 : string) : M mounts unit :=
  let* t1 := resolve path1 in
  let* '(fs1, nested_path1) := lift (Py.unpack2 (as_tuple t1)) in
  let* t2 := resolve path2 in
  let* '(fs2, nested_path2) := lift (Py.unpack2 (as_tuple t2)) in
  if same_fs fs1 fs2 then
    with_fs fs1 (fun k1 =>
      let* p1 := lift (as_path nested_path1) in
      let* p2 := lift (as_path nested_path2) in
      on_mount k1 (fun s => fs_cp_file s p1 p2))
  else
    with_fs fs2 (fun k2 =>
      with_fs fs1 (fun k1 =>
        let* p1 := lift (as_path nested_path1) in
        let* local := bind (ask_mount k1 (fun s => fs_get_file1 s p1)) lift in
        let* p2 := lift (as_path nested_path2) in
        on_mount k2 (fun s => fs_put_file s local p2))).

Definition mv (path1 path2 : string) : M mounts unit :=
  let* t1 := resolve path1 in
  let* '(fs1, nested_path1) := lift (Py.unpack2 (as_tuple t1)) in
  let* t2 := resolve path2 in
  let* '(fs2, nested_path2) := lift (Py.unpack2 (as_tuple t2)) in
  if same_fs fs1 fs2 then
    with_fs fs1 (fun k1 =>
      let* p1 := lift (as_path nested_path1) in
      let* p2 := lift (as_path nested_path2) in
      on_mount k1 (fun s => fs_mv s p1 p2))
  else
    cp_file path1 path2 ;;
    with_fs fs1 (fun k1 =>
      let* p1 := lift (as_path nested_path1) in
      on_mount k1 (fun s => fs_rm s p1 false None)).

(** What a generator produced, and the exception that ended it, if
    one did. *)
Definition generated (A : Type) : Type := list A * option exn.

Definition walk_item : Type := string * pyval * pyval.

Definition names (l : list string) : pyval := VList (map VStr l).

Definition other_keys (fss : mounts) : list string :=
  List.filter (fun k => negb (String.eqb k "default")) (map fst fss).

(** [base_path, dirs, files = item] for an item of a listing, which is
    a name or a dictionary: the targets receive the characters of the
    name or the keys of the dictionary. *)
Definition unpack_item (item : pyval) : result (string * string * string) :=
  match item with
  | VStr s =>
      match Py.chars s with
      | [a; b; c] => Ok (a, b, c)
      | _ :: _ :: _ :: _ :: _ => Raise (ValueError "too many values to unpack (expected 3)")
      | _ => Raise (ValueError "not enough values to unpack (expected 3)")
      end
  | VDict d =>
      match Py.dict_keys d with
      | [a; b; c] => Ok (a, b, c)
      | _ :: _ :: _ :: _ :: _ => Raise (ValueError "too many values to unpack (expected 3)")
      | _ => Raise (ValueError "not enough values to unpack (expected 3)")
      end
  | _ => Raise (TypeError "cannot unpack non-iterable object")
  end.

(** The inner loop over the items [fs.ls("")] returned for one mount. *)
Fixpoint walk_items (root_path : string) (items : list pyval)
    : generated walk_item :=
  match items with
  | [] => ([], None)
  | item :: rest =>
      match unpack_item item with
      | Raise e => ([], Some e)
      | Ok (base_path, dirs, files) =>
          let '(ys, e) := walk_items root_path rest in
          ((root_path +:+ "/" +:+ base_path, VStr dirs, VStr files) :: ys, e)
      end
  end.

(** The loop over [self.file_systems.items()]; [maxdepth - 1] is
    evaluated for each mount other than the default one, and the extra
    keyword goes to the backing [ls], which is called without
    [detail]. *)
Fixpoint walk_mounts (fss : mounts) (maxdepth : option Z)
    : generated walk_item :=
  match fss with
  | [] => ([], None)
  | (root_path, fs) :: rest =>
      if String.eqb root_path "default" then walk_mounts rest maxdepth
      else
        match maxdepth with
        | None =>
            ([], Some (TypeError
              "unsupported operand type(s) for -: 'NoneType' and 'int'"))
        | Some _ =>
            match fs_ls fs "" None with
            | Raise e => ([], Some e)
            | Ok items =>
                match walk_items root_path items with
                | (ys, Some e) => (ys, Some e)
                | (ys, None) =>
                    let '(zs, e) := walk_mounts rest maxdepth in
                    (ys ++ zs, e)
                end
            end
        end
  end.

Definition walk (fss : mounts) (path : string) (maxdepth : option Z)
    : generated walk_item :=
  if String.eqb path "" then
    let from_default :=
      match lookup_fs fss "default" with
      | Some d =>
          map (fun '(base_path, dirs, files) =>
                 if String.eqb base_path ""
                 then ("", names (dirs ++ other_keys fss), names files)
                 else (base_path, names dirs, names files))
              (fs_walk d "" maxdepth)
      | None => []
      end in
    let '(ys, e) := walk_mounts fss maxdepth in
    (from_default ++ ys, e)
  else ([], None).

End Methods.

End Nested.

(** ** An in-memory backing filesystem

    A filesystem as the ordered list of its entries, keyed by their full
    path; it implements the backing interface, so that the two filesystems
    above can be run on concrete layers and mounts. *)

Module MemFS.

Inductive node :=
  | File (content : string)
  | Dir.

Definition t : Type := list (string * node).

Fixpoint get (d : t) (p : string) : option node :=
  match d with
  | [] => None
  | (k, n) :: rest => if String.eqb k p then Some n else get rest p
  end.

Fixpoint set (d : t) (p : string) (n : node) : t :=
  match d with
  | [] => [(p, n)]
  | (k, n') :: rest =>
      if String.eqb k p then (k, n) :: rest else (k, n') :: set rest p n
  end.

Definition del (d : t) (p : string) : t :=
  List.filter (fun kn => negb (String.eqb (fst kn) p)) d.

Definition exists_ (d : t) (p : string) : bool :=
  match get d p with Some _ => true | None => false end.

Definition isdir (d : t) (p : string) : bool :=
  match get d p with Some Dir => true | _ => false end.

Definition isfile (d : t) (p : string) : bool :=
  match get d p with Some (File _) => true | _ => false end.

(** [child dir p]: the name of [p] inside [dir], when [p] lies directly
    in it. *)
Definition child (dir p : string) : option string :=
  let pre := if String.eqb dir "" then "" else dir +:+ "/" in
  let n := String.length pre in
  let name := String.substring n (String.length p - n) p in
  if String.prefix pre p && negb (String.eqb name "")
     && negb (Py.contains Py.slash name)
  then Some name else None.

Definition is_child (dir : string) (kn : string * node) : bool :=
  match child dir (fst kn) with Some _ => true | None => false end.

Definition is_under (dir p : string) : bool :=
  String.eqb dir "" || String.eqb dir p || String.prefix (dir +:+ "/") p.

Definition entry (kn : string * node) : pyval :=
  match kn with
  | (k, File c) =>
      VDict [("name", VStr k); ("size", VInt (Z.of_nat (String.length c)));
             ("type", VStr "file")]
  | (k, Dir) =>
      VDict [("name", VStr k); ("size", VInt 0); ("type", VStr "directory")]
  end.

Definition ls (d : t) (p : string) (detail : option bool) : result (list pyval) :=
  if String.eqb p "" || isdir d p then
    let kids := List.filter (is_child p) d in
    match detail with
    | Some false => Ok (map (fun kn => VStr (fst kn)) kids)
    | _ => Ok (map entry kids)
    end
  else Raise (FileNotFoundError p).

Definition child_names (d : t) (dir : string) (dirs : bool) : list string :=
  omap (fun kn : string * node =>
          match child dir (fst kn), snd kn with
          | Some name, Dir => if dirs then Some name else None
          | Some name, File _ => if dirs then None else Some name
          | None, _ => None
          end) d.

Definition depth (p : string) : Z :=
  if String.eqb p "" then 0 else Z.of_nat (length (Py.split p)).

Definition walk (d : t) (p : string) (maxdepth : option Z)
    : list (string * list string * list string) :=
  let within (k : string) :=
    match maxdepth with
    | Some m => depth k - depth p <? m
    | None => true
    end in
  let tops := if String.eqb p "" then [("", Dir)] else [] in
  omap (fun kn : string * node =>
          match snd kn with
          | Dir =>
              if is_under p (fst kn) && within (fst kn)
              then Some (fst kn, child_names d (fst kn) true,
                         child_names d (fst kn) false)
              else None
          | File _ => None
          end) (tops ++ d).

Definition read_text (d : t) (p : string) : result string :=
  match get d p with
  | Some (File c) => Ok c
  | Some Dir => Raise (BackendError "IsADirectoryError")
  | None => Raise (FileNotFoundError p)
  end.

Definition write (d : t) (p mode content : string) : t * result unit :=
  match get d p with
  | Some Dir => (d, Raise (BackendError "IsADirectoryError"))
  | Some (File old) =>
      if Py.contains "a" mode then (set d p (File (old +:+ content)), Ok tt)
      else if Py.contains "w" mode then (set d p (File content), Ok tt)
      else (d, Raise (BackendError "UnsupportedOperation"))
  | None =>
      if Py.contains "a" mode || Py.contains "w" mode
      then (set d p (File content), Ok tt)
      else (d, Raise (FileNotFoundError p))
  end.

Definition touch (d : t) (p : string) : t * result unit :=
  match get d p with
  | Some Dir => (d, Raise (BackendError "IsADirectoryError"))
  | _ => (set d p (File ""), Ok tt)
  end.

(** All the ancestors of [p] and [p] itself, root to leaf. *)
Definition chain (p : string) : list string :=
  let parts := Py.split p in
  map (fun i => Py.join (take i parts)) (seq 1 (length parts)).

Fixpoint mkchain (d : t) (ps : list string) : t * result unit :=
  match ps with
  | [] => (d, Ok tt)
  | q :: rest =>
      match get d q with
      | Some (File _) => (d, Raise (BackendError "NotADirectoryError"))
      | Some Dir => mkchain d rest
      | None => mkchain (set d q Dir) rest
      end
  end.

Definition mkdirs (d : t) (p : string) (exist_ok : bool) : t * result unit :=
  match get d p with
  | Some Dir => if exist_ok then (d, Ok tt) else (d, Raise (FileExistsError p))
  | Some (File _) => (d, Raise (FileExistsError p))
  | None => mkchain d (chain p)
  end.

Definition rmdir (d : t) (p : string) : t * result unit :=
  match get d p with
  | Some Dir =>
      if existsb (is_child p) d then (d, Raise (BackendError "OSError: not empty"))
      else (del d p, Ok tt)
  | Some (File _) => (d, Raise (BackendError "NotADirectoryError"))
  | None => (d, Raise (FileNotFoundError p))
  end.

Definition rm_file (d : t) (p : string) : t * result unit :=
  match get d p with
  | Some (File _) => (del d p, Ok tt)
  | Some Dir => (d, Raise (BackendError "IsADirectoryError"))
  | None => (d, Raise (FileNotFoundError p))
  end.

Definition rm (d : t) (p : string) (recursive : bool) (maxdepth : option Z)
    : t * result unit :=
  match get d p with
  | Some (File _) => (del d p, Ok tt)
  | Some Dir =>
      if recursive
      then (List.filter (fun kn => negb (is_under p (fst kn))) d, Ok tt)
      else rmdir d p
  | None => (d, Raise (FileNotFoundError p))
  end.

Definition cp_file (d : t) (p1 p2 : string) : t * result unit :=
  match get d p1 with
  | Some (File c) => (set d p2 (File c), Ok tt)
  | Some Dir => (d, Raise (BackendError "IsADirectoryError"))
  | None => (d, Raise (FileNotFoundError p1))
  end.

Definition mv (d : t) (p1 p2 : string) : t * result unit :=
  match get d p1 with
  | Some (File c) => (del (set d p2 (File c)) p1, Ok tt)
  | Some Dir => (d, Raise (BackendError "IsADirectoryError"))
  | None => (d, Raise (FileNotFoundError p1))
  end.

Definition get_file1 (d : t) (p : string) : result pyval :=
  Raise (TypeError "get_file() missing 1 required positional argument: 'lpath'").

Definition put_file (d : t) (local : pyval) (p : string) : t * result unit :=
  match local with
  | VStr c => (set d p (File c), Ok tt)
  | _ => (d, Raise (TypeError "expected str, bytes or os.PathLike object"))
  end.

#[global] Instance file_system : FileSystem t := {|
  fs_exists := exists_;
  fs_lexists := exists_;
  fs_isdir := isdir;
  fs_isfile := isfile;
  fs_ls := ls;
  fs_walk := walk;
  fs_read_text := read_text;
  fs_read := read_text;
  fs_write := write;
  fs_touch := touch;
  fs_mkdirs := mkdirs;
  fs_rmdir := rmdir;
  fs_rm_file := rm_file;
  fs_rm := rm;
  fs_cp_file := cp_file;
  fs_mv := mv;
  fs_get_file1 := get_file1;
  fs_put_file := put_file;
|}.

(** The parent of a relative path as [pathlib] gives it: the path
    without its last component, ["."] when nothing is left. *)
Definition parent_of (p : string) : string :=
  let parts := List.filter (fun x => negb (String.eqb x "" || String.eqb x "."))
                           (Py.split p) in
  match Py.join (take (length parts - 1) parts) with
  | "" => "."
  | s => s
  end.

End MemFS.

(** ** Concrete layers and mounts *)

Module Examples.
Import MemFS.

(** A base layer with a directory [d] holding the files [x] and [y]. *)
Definition base_xy : MemFS.t :=
  [("d", Dir); ("d/x", File "1"); ("d/y", File "2")].

(** A delta layer that deletes [d/x] and adds [d/z]. *)
Definition delta_xz : MemFS.t :=
  [("d", Dir); ("d/x.deleted", File ""); ("d/z", File "3")].

(** A delta layer that deletes the whole directory [d]. *)
Definition delta_no_d : MemFS.t := [("d.deleted", Dir)].

Definition overlay_xz : Transparent.overlay MemFS.t :=
  {| Transparent.transparent_fs := delta_xz; Transparent.base_fs := base_xy |}.

Definition overlay_no_d : Transparent.overlay MemFS.t :=
  {| Transparent.transparent_fs := delta_no_d; Transparent.base_fs := base_xy |}.

Definition overlay_fresh : Transparent.overlay MemFS.t :=
  {| Transparent.transparent_fs := []; Transparent.base_fs := base_xy |}.

(** A default mount whose root directory is an entry of its own. *)
Definition rooted : MemFS.t := [("", Dir); ("keep.txt", File "k")].

(** Mounts [a] and [b] and a default mount. *)
Definition mounts_ab : @Nested.mounts MemFS.t :=
  [("a", base_xy); ("b", delta_xz); ("default", rooted)].

(** The names [fsspec.AbstractFileSystem] defines. *)
Definition abstract_fs_names : list string :=
  ["cachable"; "blocksize"; "sep"; "protocol"; "async_impl";
   "mirror_sync_methods"; "root_marker"; "transaction_type"; "__init__";
   "fsid"; "__dask_tokenize__"; "__hash__"; "__eq__"; "__reduce__";
   "_strip_protocol"; "unstrip_protocol"; "_get_kwargs_from_urls";
   "current"; "transaction"; "start_transaction"; "end_transaction";
   "invalidate_cache"; "mkdir"; "makedirs"; "rmdir"; "ls"; "_ls_from_cache";
   "walk"; "find"; "du"; "glob"; "exists"; "lexists"; "info"; "checksum";
   "size"; "sizes"; "isdir"; "isfile"; "read_text"; "write_text";
   "cat_file"; "pipe_file"; "pipe"; "cat_ranges"; "cat"; "get_file"; "get";
   "put_file"; "put"; "head"; "tail"; "cp_file"; "copy"; "expand_path";
   "mv"; "rm_file"; "_rm"; "rm"; "_parent"; "_open"; "open"; "touch";
   "ukey"; "read_block"; "to_json"; "to_dict"; "from_json"; "from_dict";
   "_get_pyarrow_filesystem"; "get_mapper"; "clear_instance_cache";
   "created"; "modified"; "tree"; "read_bytes"; "write_bytes"; "makedir";
   "mkdirs"; "listdir"; "cp"; "move"; "stat"; "disk_usage"; "rename";
   "delete"; "upload"; "download"; "sign"; "_isfilestore"].

Definition abstract_fs : Transparent.base_class :=
  {| Transparent.bc_names := abstract_fs_names;
     Transparent.bc_get_filesystem := fun _ =>
       Raise (AttributeError "'AbstractFileSystem' has no '_get_filesystem'") |}.

End Examples.

(** ** Further operations of the backing interface

    The operations of [fsspec.AbstractFileSystem] that the remaining
    methods of the two modules call. *)
Class FileSystemOps (FS : Type) `{FileSystem FS} := {
  (** [mkdir(path)] *)
  fs_mkdir : FS -> string -> FS * result unit;
  (** [makedirs(path, exist_ok=...)] *)
  fs_makedirs : FS -> string -> bool -> FS * result unit;
  (** [write_text(path, value)] *)
  fs_write_text : FS -> string -> string -> FS * result pyval;
  (** [pipe_file(path, value)] *)
  fs_pipe_file : FS -> string -> string -> FS * result pyval;
}.

(** What removing and creating single files may do to the existence of
    paths: [touch(q)] makes [q] exist and adds nothing but [q] and
    directories [q] lies in; [rm_file(q)] makes [q] absent and adds
    nothing. *)
Class FileSystemFileLaws (FS : Type) `{FileSystem FS} := {
  fs_touch_exists : forall d q d',
    fs_touch d q = (d', Ok tt) -> fs_exists d' q = true;
  fs_touch_adds : forall d q d' q',
    fs_touch d q = (d', Ok tt) -> fs_exists d' q' = true ->
    fs_exists d q' = true \/ q' = q \/ String.prefix (q' +:+ "/") q = true;
  fs_rm_file_absent : forall d q d',
    fs_rm_file d q = (d', Ok tt) -> fs_exists d' q = false;
  fs_rm_file_adds : forall d q d' q',
    fs_rm_file d q = (d', Ok tt) -> fs_exists d' q' = true ->
    fs_exists d q' = true;
}.

(** [makedirs]/[mkdirs] without [exist_ok] refuses a path that exists, and
    changes nothing then. *)
Class FileSystemDirLaws (FS : Type) `{FileSystem FS} := {
  fs_mkdirs_existing : forall d q,
    fs_exists d q = true -> fs_mkdirs d q false = (d, Raise (FileExistsError q));
}.

(** ** Truth values of Python *)

Module PyBool.

(** [bool(v)]: what [if v] and [v or w] test. *)
Definition truthy (v : pyval) : bool :=
  match v with
  | VNone => false
  | VBool b => b
  | VInt z => negb (z =? 0)
  | VStr s => negb (String.eqb s "")
  | VList l => match l with [] => false | _ => true end
  | VDict d => match d with [] => false | _ => true end
  | VFs _ => true
  end.

End PyBool.

(** ** The overlay: directories, writes and removals *)

Module TransparentWrite.
Import Transparent.

Section Methods.
Context {FS : Type} `{FileSystemOps FS}.

(** [str(Path(path).parent)], from Python's [pathlib]. *)
Variable parent_of : string -> string.

Definition __pre_mkdir (path : string) (exist_ok : bool) : M (overlay FS) unit :=
  let* out := gets (fun w => _check_exists_and_where w path) in
  if er_exists out then
    if exist_ok then ret tt
    else raise (FileExistsError path)
  else if er_modification out =? 1 then
    on_layer Delta (fun d => fs_makedirs d (er_path out) true) ;;
    on_layer Delta (fun d => fs_rmdir d (path +:+ ".deleted")) ;;
    on_layer Delta (fun d => fs_makedirs d (path +:+ ".replaced") true)
  else if er_modification out =? 2 then ret tt
  else
    let parent := parent_of path in
    let* w := gets id in
    if fs_isdir (base_fs w) parent
    then on_layer Delta (fun d => fs_mkdirs d parent false)
    else ret tt.

Definition mkdir (path : string) : M (overlay FS) unit :=
  __pre_mkdir path false ;;
  on_layer Delta (fun d => fs_mkdir d path).

Definition makedirs (path : string) (exist_ok : bool) : M (overlay FS) unit :=
  __pre_mkdir path exist_ok ;;
  on_layer Delta (fun d => fs_mkdirs d path exist_ok).

(** [mkdirs] is inherited from [AbstractFileSystem], where it is an alias
    that calls [self.makedirs]. *)
Definition mkdirs (path : string) (exist_ok : bool) : M (overlay FS) unit :=
  makedirs path exist_ok.

Definition rmdir (path : string) : M (overlay FS) unit :=
  let* w := gets id in
  (if fs_isdir (base_fs w) path
   then on_layer Delta (fun d => fs_makedirs d (path +:+ ".deleted") true)
   else raise (ValueError "Cannot remove directory")) ;;
  let* w := gets id in
  if fs_isdir (transparent_fs w) path
  then on_layer Delta (fun d => fs_rmdir d path)
  else ret tt.

Definition write_text (path value : string) : M (overlay FS) pyval :=
  let* fs := gets (fun w => __leading_fs w path) in
  on_layer fs (fun d => fs_write_text d path value).

Definition pipe_file (path value : string) : M (overlay FS) pyval :=
  let* fs := gets (fun w => __leading_fs w path) in
  on_layer fs (fun d => fs_pipe_file d path value).

Definition put_file (lpath rpath : string) : M (overlay FS) unit :=
  mkdirs (parent_of rpath) true ;;
  on_layer Delta (fun d => fs_put_file d (VStr lpath) rpath).

Definition touch (path : string) : M (overlay FS) unit :=
  mkdirs (parent_of path) true ;;
  on_layer Delta (fun d => fs_touch d path).

Definition mv (path1 path2 : string) : M (overlay FS) unit :=
  let* fs := gets (fun w => __leading_fs w path1) in
  if layer_eqb fs Delta then
    on_layer Delta (fun d => fs_mv d path1 path2)
  else
    cp_file path1 path2 ;;
    rm_file path1 ;;
    ret tt.

(** The emptiness test of a non-recursive [rm]:
    [subdirs, files = self.ls(path)] and [if subdirs or files]. *)
Definition rm_check_empty (path : string) : M (overlay FS) unit :=
  let* w := gets id in
  if negb (exists_ w path) then raise (ValueError "Cannot remove file or directory")
  else
    let* listing := lift (ls w path true) in
    let* '(subdirs, files) := lift (Py.unpack2 listing) in
    if PyBool.truthy subdirs || PyBool.truthy files
    then raise (ValueError "Cannot remove directory. Directory is not empty")
    else ret tt.

Definition rm (path : string) (recursive : bool) (maxdepth : option Z)
    : M (overlay FS) pyval :=
  match maxdepth with
  | Some _ => raise (NotImplementedError "maxdepth is not implemented yet")
  | None =>
      (if negb recursive then rm_check_empty path else ret tt) ;;
      let* ex := gets (fun w => _check_exists_and_where w path) in
      if negb (er_exists ex) then raise (FileNotFoundError path)
      else
        let* w := gets id in
        (if fs_exists (transparent_fs w) (path +:+ ".replaced")
         then on_layer Delta (fun d => fs_rmdir d (path +:+ ".replaced"))
         else ret tt) ;;
        (if er_where ex =? 0 then
           on_layer Delta (fun d => fs_rm d path recursive None) ;;
           let* w := gets id in
           if fs_exists (base_fs w) path
           then on_layer Delta (fun d => fs_touch d (path +:+ ".deleted"))
           else ret tt
         else on_layer Delta (fun d => fs_touch d (path +:+ ".deleted"))) ;;
        ret (VBool true)
  end.

End Methods.

End TransparentWrite.

(** ** The overlay: the tree walk *)

Module TransparentWalk.
Import Transparent.

(** One directory of a walk: its path, its sub-directory names and its
    file names. *)
Definition walk_entry : Type := string * list string * list string.

(** The dictionary [out] of [walk], from directory path to the pair of
    [dirs] and [files]. *)
Definition walk_dict : Type := list (string * (list string * list string)).

Fixpoint wd_get (d : walk_dict) (k : string) : option (list string * list string) :=
  match d with
  | [] => None
  | (k', v) :: rest => if String.eqb k' k then Some v else wd_get rest k
  end.

Fixpoint wd_set (d : walk_dict) (k : string) (v : list string * list string)
    : walk_dict :=
  match d with
  | [] => [(k, v)]
  | (k', v') :: rest =>
      if String.eqb k' k then (k', v) :: rest else (k', v') :: wd_set rest k v
  end.

(** The variable [out]: the dictionary, or, once a list comprehension over
    its keys was assigned to it, a list of keys. *)
Inductive walk_out :=
  | OutDict (d : walk_dict)
  | OutList (keys : list string).

(** Iterating over [out], and [base_path in out]. *)
Definition out_keys (out : walk_out) : list string :=
  match out with
  | OutDict d => map fst d
  | OutList keys => keys
  end.

Definition out_contains (out : walk_out) (k : string) : bool :=
  existsb (String.eqb k) (out_keys out).

(** [out[k] = v] *)
Definition out_store (out : walk_out) (k : string) (v : list string * list string)
    : result walk_out :=
  match out with
  | OutDict d => Ok (OutDict (wd_set d k v))
  | OutList _ => Raise (TypeError "list indices must be integers or slices, not str")
  end.

(** [out[k]] *)
Definition out_load (out : walk_out) (k : string) : result (list string * list string) :=
  match out with
  | OutDict d =>
      match wd_get d k with
      | Some v => Ok v
      | None => Raise (KeyError k)
      end
  | OutList _ => Raise (TypeError "list indices must be integers or slices, not str")
  end.

(** Sets of names, as duplicate-free lists.  The order in which Python
    enumerates a set is not fixed; here it is the order of insertion. *)
Definition set_of (l : list string) : list string := remove_dups l.

Definition set_mem (x : string) (s : list string) : bool :=
  existsb (String.eqb x) s.

Definition set_add (x : string) (s : list string) : list string :=
  if set_mem x s then s else s ++ [x].

(** [s.remove(x)]: [KeyError] when [x] is not in the set. *)
Definition set_remove (x : string) (s : list string) : result (list string) :=
  if set_mem x s
  then Ok (List.filter (fun y => negb (String.eqb x y)) s)
  else Raise (KeyError x).

(** The loops [for d in dirs] and [for f in files]. *)
Fixpoint merge_names (names : list string) (s : list string) : result (list string) :=
  match names with
  | [] => Ok s
  | n :: rest =>
      if Py.endswith n ".deleted" then
        match set_remove (Py.drop_last 8 n) s with
        | Ok s' => merge_names rest s'
        | Raise e => Raise e
        end
      else merge_names rest (set_add n s)
  end.

(** [[k for k in out if not k.startswith(bp)]] *)
Definition prune (out : walk_out) (bp : string) : walk_out :=
  OutList (List.filter (fun k => negb (String.prefix bp k)) (out_keys out)).

(** The body of the loop over the walk of the transparent layer. *)
Definition walk_step (out : walk_out) (entry : walk_entry) : result walk_out :=
  let '(base_path, dirs, files) := entry in
  let '(out, replaced) :=
    if Py.endswith base_path ".deleted"
    then (prune out (Py.drop_last 8 base_path), true)
    else if Py.endswith base_path ".replaced"
    then (prune out (Py.drop_last 9 base_path), false)
    else (out, false) in
  if replaced then out_store out base_path (dirs, files)
  else if out_contains out base_path then
    match out_load out base_path with
    | Raise e => Raise e
    | Ok (old_dirs, old_files) =>
        match merge_names dirs (set_of old_dirs) with
        | Raise e => Raise e
        | Ok out_dirs =>
            match merge_names files (set_of old_files) with
            | Raise e => Raise e
            | Ok out_files => out_store out base_path (out_dirs, out_files)
            end
        end
    end
  else out_store out base_path (dirs, files).

Fixpoint walk_loop (out : walk_out) (entries : list walk_entry) : result walk_out :=
  match entries with
  | [] => Ok out
  | entry :: rest =>
      match walk_step out entry with
      | Ok out' => walk_loop out' rest
      | Raise e => Raise e
      end
  end.

(** The dictionary comprehension over the walk of the base layer. *)
Definition walk_base (entries : list walk_entry) : walk_dict :=
  fold_left (fun d entry => let '(base_path, dirs, files) := entry in
                            wd_set d base_path (dirs, files)) entries [].

Section Methods.
Context {FS : Type} `{FileSystem FS}.

(** [walk] is a generator whose [yield]s all come after the two loops, so
    an exception surfaces at the first item asked for, before anything was
    produced.  Both layers are walked from [""], whatever [path] is. *)
Definition walk (w : overlay FS) (path : string) (maxdepth : option Z)
    : result (list walk_entry) :=
  let out := OutDict (walk_base (fs_walk (base_fs w) "" maxdepth)) in
  match walk_loop out (fs_walk (transparent_fs w) "" maxdepth) with
  | Raise e => Raise e
  | Ok (OutDict d) => Ok (map (fun kv => (fst kv, fst (snd kv), snd (snd kv))) d)
  | Ok (OutList _) => Raise (AttributeError "'list' object has no attribute 'items'")
  end.

End Methods.

End TransparentWalk.

(** ** The router: the delegating methods *)

Module NestedOps.
Import Nested.

Section Methods.
Context {FS : Type} `{FileSystemOps FS}.

(** As before, [fs] is an entry of the mount table and never [None]. *)

Definition mkdir (path : string) : M mounts unit :=
  let* '(fs, root_path, nested_path) := resolve path in
  on_mount fs (fun s => fs_mkdir s nested_path).

Definition makedirs (path : string) (exist_ok : bool) : M mounts unit :=
  let* '(fs, root_path, nested_path) := resolve path in
  on_mount fs (fun s => fs_makedirs s nested_path exist_ok).

Definition lexists (path : string) : M mounts bool :=
  let* '(fs, root_path, nested_path) := resolve path in
  ask_mount fs (fun s => fs_lexists s nested_path).

Definition isdir (path : string) : M mounts bool :=
  let* '(fs, root_path, nested_path) := resolve path in
  ask_mount fs (fun s => fs_isdir s nested_path).

Definition isfile (path : string) : M mounts bool :=
  let* '(fs, root_path, nested_path) := resolve path in
  ask_mount fs (fun s => fs_isfile s nested_path).

Definition read_text (path : string) : M mounts string :=
  let* '(fs, root_path, nested_path) := resolve path in
  bind (ask_mount fs (fun s => fs_read_text s nested_path)) lift.

Definition write_text (path value : string) : M mounts pyval :=
  let* '(fs, root_path, nested_path) := resolve path in
  on_mount fs (fun s => fs_write_text s nested_path value).

Definition pipe_file (path value : string) : M mounts pyval :=
  let* '(fs, root_path, nested_path) := resolve path in
  on_mount fs (fun s => fs_pipe_file s nested_path value).

Definition rm_file (path : string) : M mounts unit :=
  let* '(fs, root_path, nested_path) := resolve path in
  on_mount fs (fun s => fs_rm_file s nested_path).

Definition touch (path : string) : M mounts unit :=
  let* '(fs, root_path, nested_path) := resolve path in
  on_mount fs (fun s => fs_touch s nested_path).

End Methods.

End NestedOps.

(** ** The in-memory filesystem: the further operations *)

Module MemFSOps.
Import MemFS.

(** [mkdir] creates the missing parents and refuses an existing path. *)
Definition mkdir (d : t) (p : string) : t * result unit :=
  match get d p with
  | Some _ => (d, Raise (FileExistsError p))
  | None => mkchain d (chain p)
  end.

Definition write_text (d : t) (p value : string) : t * result pyval :=
  match write d p "w" value with
  | (d', Ok _) => (d', Ok (VInt (Z.of_nat (String.length value))))
  | (d', Raise e) => (d', Raise e)
  end.

Definition pipe_file (d : t) (p value : string) : t * result pyval :=
  match write d p "wb" value with
  | (d', Ok _) => (d', Ok VNone)
  | (d', Raise e) => (d', Raise e)
  end.

#[global] Instance file_system_ops : FileSystemOps MemFS.t := {|
  fs_mkdir := mkdir;
  fs_makedirs := mkdirs;
  fs_write_text := write_text;
  fs_pipe_file := pipe_file;
|}.

End MemFSOps.

(** ** Further concrete layers *)

Module Examples2.
Import MemFS.

(** A delta layer that replaced the directory [d]. *)
Definition delta_replaced : MemFS.t := [("d.replaced", Dir)].

Definition overlay_replaced : Transparent.overlay MemFS.t :=
  {| Transparent.transparent_fs := delta_replaced;
     Transparent.base_fs := Examples.base_xy |}.

(** A delta layer with a file [d/x] of its own over the base file. *)
Definition delta_shadow : MemFS.t := [("d", Dir); ("d/x", File "new")].

Definition overlay_shadow : Transparent.overlay MemFS.t :=
  {| Transparent.transparent_fs := delta_shadow;
     Transparent.base_fs := Examples.base_xy |}.

End Examples2.

(** ** The shapes of a resolution result *)

Module Resolution.
Import Transparent.

(** The four results the loop over the entries [pts] can end with, for
    the queried [path]. *)
Definition resolution_case {FS : Type} `{FileSystem FS} (w : overlay FS)
    (path : string) (pts : list string) (r : ExistsReturn) : Prop :=
  (er_where r = 1 /\ er_modification r = 0 /\ er_path r = path /\
   er_exists r = fs_exists (base_fs w) path) \/
  (er_where r = 0 /\ er_exists r = true /\ er_modification r = 0 /\
   er_path r = path /\ fs_exists (transparent_fs w) path = true) \/
  (er_where r = 0 /\ er_exists r = false /\ er_modification r = 1 /\
   In (er_path r) pts) \/
  (er_where r = 0 /\ er_exists r = false /\ er_modification r = 2 /\
   er_path r = path).

End Resolution.

(** ** Well-formed listing dictionaries *)

Module Listing.

(** An entry whose value is true for Python, or whose key is the empty
    name. *)
Definition entry_ok (kv : string * pyval) : Prop :=
  PyBool.truthy (snd kv) = true \/ fst kv = "".

Definition dict_ok (d : Py.dict) : Prop :=
  List.NoDup (Py.dict_keys d) /\ Forall entry_ok d.

End Listing.

(** ** Mounts a routed method leaves alone *)

Module Isolation.
Import Nested.

(** A method on one path that keeps the keys of the mount table and the
    state of every mount other than the one the path resolves to, whether
    it returns or raises. *)
Definition changes_resolved_mount_only {FS : Type} `{FileSystem FS} {A : Type}
    (op : string -> M (@mounts FS) A) : Prop :=
  forall (fss : mounts) (p : string),
    map fst (fst (op p fss)) = map fst fss /\
    forall k, (forall root nested, _get_filesystem fss p <> Ok (k, root, nested)) ->
              lookup_fs (fst (op p fss)) k = lookup_fs fss k.

End Isolation.

(** ** The storage adapter: [FsspecStorage] *)

Module Storage.

(** What [FsspecStorage] calls on [self.filesystem], which is any
    filesystem of the interface, the overlay and the router included. *)
Class StorageFs (S : Type) := {
  (** [filesystem.exists(name)] *)
  sf_exists : S -> string -> S * result bool;
  (** [filesystem.rm(name)] *)
  sf_rm : S -> string -> S * result pyval;
  (** [with filesystem.open(name, "wb") as f: f.write(content)] *)
  sf_write : S -> string -> string -> S * result unit;
}.

(** The attributes [__init__] sets next to [self.filesystem], which is the
    state the methods run on. *)
Record FsspecStorage := {
  location : pyval;
  base_url : pyval;
  file_permissions_mode : pyval;
  directory_permissions_mode : pyval;
  allow_overwrite : pyval;
}.

(** How [__init__] ends when it raises: with Django's
    [ImproperlyConfigured], or with what [get_filesystem] raised. *)
Inductive init_error :=
  | ImproperlyConfigured (msg : string)
  | FactoryError (e : exn).

(** [d.pop(key, default)]: the value and the dictionary without the key. *)
Definition pop (d : Py.dict) (key : string) (default : pyval) : pyval * Py.dict :=
  match Py.dict_get d key with
  | Some v => (v, List.filter (fun kv => negb (String.eqb (fst kv) key)) d)
  | None => (default, d)
  end.

(** The settings [__init__] knows. *)
Definition known_settings : list string :=
  ["location"; "base_url"; "file_permissions_mode";
   "directory_permissions_mode"; "allow_overwrite"; "storage_config"].

Section Methods.
Context {S : Type} `{StorageFs S}.

(** [get_filesystem] of [utils], called with the entries of
    [storage_config] as keyword arguments. *)
Variable get_filesystem : pyval -> result S.

Definition __init__ (settings : Py.dict) : (FsspecStorage * S) + init_error :=
  let '(location, cp) := pop settings "location" (VStr "") in
  let '(base_url, cp) := pop cp "base_url" VNone in
  let '(file_permissions_mode, cp) := pop cp "file_permissions_mode" VNone in
  let '(directory_permissions_mode, cp) := pop cp "directory_permissions_mode" VNone in
  let '(allow_overwrite, cp) := pop cp "allow_overwrite" (VBool true) in
  match Py.dict_get cp "storage_config" with
  | None => inr (ImproperlyConfigured "storage_config is required")
  | Some _ =>
      let '(storage_config, cp) := pop cp "storage_config" VNone in
      match get_filesystem storage_config with
      | Raise e => inr (FactoryError e)
      | Ok filesystem =>
          if PyBool.truthy (VDict cp)
          then inr (ImproperlyConfigured "Unknown setting(s)")
          else inl ({| location := location; base_url := base_url;
                       file_permissions_mode := file_permissions_mode;
                       directory_permissions_mode := directory_permissions_mode;
                       allow_overwrite := allow_overwrite |}, filesystem)
      end
  end.

Definition delete (name : string) : M S pyval :=
  fun fs => sf_rm fs name.

Definition exists_ (name : string) : M S bool :=
  fun fs => sf_exists fs name.

Definition path (name : string) : string := name.

(** [content] stands for what [content.read()] returns. *)
Definition _save (self : FsspecStorage) (name content : string) : M S string :=
  (if PyBool.truthy (allow_overwrite self) then
     let* present := exists_ name in
     if present then delete name ;; ret tt else ret tt
   else ret tt) ;;
  (fun fs => sf_write fs name content) ;;
  ret name.

(** [self.base_url + name] *)
Definition url (self : FsspecStorage) (name : string) : result string :=
  match base_url self with
  | VStr b => Ok (b +:+ name)
  | _ => Raise (TypeError "unsupported operand type(s) for +")
  end.

Definition get_accessed_time (name : string) : result pyval :=
  Raise (NotImplementedError "").

End Methods.

(** The overlay as the filesystem of a storage. *)
Definition overlay_fs {FS : Type} `{FileSystemOps FS} (parent_of : string -> string)
    : StorageFs (Transparent.overlay FS) := {|
  sf_exists := fun w name => (w, Ok (Transparent.exists_ w name));
  sf_rm := fun w name => TransparentWrite.rm name false None w;
  sf_write := fun w name content =>
    bind (Transparent.open parent_of name "wb")
         (fun h => Transparent.write h content) w;
|}.

End Storage.

Module Examples3.

(** The settings of a storage that does not set [base_url]. *)
Definition settings_ok : Py.dict :=
  [("storage_config", VDict [("protocol", VStr "memory")]);
   ("allow_overwrite", VBool false)].

(** A factory that hands out the overlay of the examples. *)
Definition factory (cfg : pyval) : result (Transparent.overlay MemFS.t) :=
  Ok Examples.overlay_fresh.

End Examples3.

(** ** Proof automation *)

(** Case analysis on the tests the resolution loop makes on one path. *)
Ltac loop_step :=
  simpl;
  repeat match goal with
    | |- context [fs_exists ?d ?p] =>
        let E := fresh "E" in destruct (fs_exists d p) eqn:E
    | |- context [String.eqb ?a ?b] =>
        let E := fresh "E" in destruct (String.eqb_spec a b) as [E|E]
    end;
  simpl; try done.

(** Lemmas on methods that leave the base layer alone. *)
Create HintDb frame.

(* ===================================================================== *)
(** * Part II: lemmas and theorems *)
(* ===================================================================== *)

(** ** Splitting and joining paths *)

Section PathStrings.

Lemma split_nonempty s : Py.split s <> [].
Proof.
  destruct s as [|c r]; simpl; [discriminate|].
  destruct (Ascii.eqb c Py.slash); [discriminate|].
  destruct (Py.split r); discriminate.
Qed.

Lemma join_cons x y l :
  Py.join (x :: y :: l) = x +:+ String Py.slash (Py.join (y :: l)).
Proof. reflexivity. Qed.

(** Joining the pieces of a split gives the string back. *)
Lemma join_split s : Py.join (Py.split s) = s.
Proof.
  induction s as [|c r IH]; [reflexivity|].
  simpl. destruct (Ascii.eqb_spec c Py.slash) as [->|Hc].
  - pose proof (split_nonempty r) as Hne.
    destruct (Py.split r) as [|h t] eqn:E; [done|].
    rewrite join_cons, IH. reflexivity.
  - pose proof (split_nonempty r) as Hne.
    destruct (Py.split r) as [|h t] eqn:E; [done|].
    destruct t as [|h' t].
    + simpl in *. by rewrite IH.
    + rewrite join_cons. rewrite join_cons in IH.
      rewrite <- IH. reflexivity.
Qed.

Lemma length_append s1 s2 :
  String.length (s1 +:+ s2) = (String.length s1 + String.length s2)%nat.
Proof. induction s1 as [|c s1 IH]; simpl; [done|]. by rewrite IH. Qed.

Lemma length_join l : l <> [] -> S (String.length (Py.join l)) = Py.weight l.
Proof.
  induction l as [|x [|y l] IH]; intros Hne; [done|simpl; lia|].
  rewrite join_cons, length_append.
  change (String.length (String Py.slash (Py.join (y :: l))))
    with (S (String.length (Py.join (y :: l)))).
  change (Py.weight (x :: y :: l)) with (S (String.length x + Py.weight (y :: l))).
  rewrite <- IH by discriminate. lia.
Qed.

Lemma weight_app l1 l2 :
  Py.weight (l1 ++ l2) = (Py.weight l1 + Py.weight l2)%nat.
Proof. induction l1 as [|x l1 IH]; simpl; [done|]. rewrite IH. lia. Qed.

(** A proper, non-empty prefix of the pieces joins to a shorter string. *)
Lemma length_join_take l i :
  (1 <= i < length l)%nat ->
  (String.length (Py.join (take i l)) < String.length (Py.join l))%nat.
Proof.
  intros [Hi Hl].
  assert (Hl0 : l <> []) by (destruct l; simpl in *; [lia|done]).
  assert (Ht0 : take i l <> []).
  { destruct l, i; simpl in *; try lia; done. }
  pose proof (length_join l Hl0) as H1.
  pose proof (length_join (take i l) Ht0) as H2.
  rewrite <- (take_drop i l) in H1 at 2. rewrite weight_app in H1.
  assert (0 < Py.weight (drop i l))%nat.
  { destruct (drop i l) eqn:E; simpl; [|lia].
    apply (f_equal length) in E. rewrite length_drop in E. simpl in E. lia. }
  lia.
Qed.

End PathStrings.

(** ** The path tree *)

Section PathTree.
Import Transparent.

(** The path tree of [path] consists of proper ancestors, all different
    from [path], followed by [path] itself. *)
Lemma path_tree_shape path :
  exists ancestors,
    _get_path_tree path = ancestors ++ [path] /\
    Forall (fun pt => pt <> path) ancestors.
Proof.
  unfold _get_path_tree.
  pose proof (split_nonempty path) as Hne.
  set (sp := Py.split path) in *.
  destruct (length sp) as [|n] eqn:Hlen; [by destruct sp|].
  exists (map (fun i => Py.join (take i sp)) (seq 1 n)). split.
  - rewrite seq_S, map_app. simpl. f_equal.
    rewrite <- Hlen, firstn_all. subst sp. by rewrite join_split.
  - apply Forall_forall. intros pt Hin.
    apply list_elem_of_fmap in Hin as (i & -> & Hi).
    apply list_elem_of_In, in_seq in Hi.
    intros Heq. apply (f_equal String.length) in Heq.
    pose proof (length_join_take sp i ltac:(lia)) as Hlt.
    subst sp. rewrite join_split in Hlt. lia.
Qed.

Lemma path_tree_last path :
  exists ancestors, _get_path_tree path = ancestors ++ [path].
Proof. destruct (path_tree_shape path) as (a & ? & _). eauto. Qed.

(** An element of [l ++ [y]] is reached after a prefix of [l]. *)
Lemma elem_of_snoc_split {A} (l : list A) (y x : A) :
  x ∈ l ++ [y] ->
  exists pre post, l ++ [y] = pre ++ x :: post /\ pre = take (length pre) l.
Proof.
  intros Hin. apply list_elem_of_split in Hin as (pre & post & Heq).
  exists pre, post. split; [done|].
  assert (Hlen : (length pre <= length l)%nat).
  { apply (f_equal length) in Heq. rewrite !length_app in Heq. simpl in Heq. lia. }
  apply (f_equal (take (length pre))) in Heq.
  rewrite take_app_le in Heq by done.
  rewrite take_app_length in Heq. done.
Qed.

End PathTree.

(** ** The overlay: existence resolution *)

Section OverlayResolution.
Import Transparent.
Context {FS : Type} `{FileSystem FS}.

(** The loop stops with "absent" at the first path that is missing from
    the transparent layer and marked deleted, if no earlier path is the
    queried one. *)
Lemma check_loop_deleted (w : overlay FS) path pre pt post cb m :
  Forall (fun q => q <> path) pre ->
  fs_exists (transparent_fs w) pt = false ->
  fs_exists (transparent_fs w) (pt +:+ ".deleted") = true ->
  er_exists (check_loop w path (pre ++ pt :: post) cb m) = false.
Proof.
  intros Hpre Hpt Hdel. revert cb m.
  induction Hpre as [|q pre Hq Hpre IH]; intros cb m.
  - simpl. by rewrite Hpt, Hdel.
  - loop_step; auto.
Qed.

(** A result that reports a deletion reports the path absent and names
    the transparent layer. *)
Lemma check_loop_modification (w : overlay FS) path pts cb m :
  m <> 1 ->
  er_modification (check_loop w path pts cb m) = 1 ->
  er_exists (check_loop w path pts cb m) = false /\
  er_where (check_loop w path pts cb m) = 0.
Proof.
  revert cb m. induction pts as [|pt pts IH]; intros cb m Hm.
  - simpl. destruct cb; simpl; intros; done.
  - loop_step; auto.
Qed.

(** When the queried path is in the transparent layer, the loop over its
    path tree ends in the transparent layer. *)
Lemma check_loop_present (w : overlay FS) path pre cb m :
  fs_exists (transparent_fs w) path = true ->
  let r := check_loop w path (pre ++ [path]) cb m in
  er_exists r = false \/ er_where r = 0.
Proof.
  intros Hp. revert cb m. induction pre as [|q pre IH]; intros cb m.
  - simpl. rewrite Hp, String.eqb_refl. simpl. by right.
  - loop_step; auto.
Qed.

Lemma leading_fs_present (w : overlay FS) path :
  fs_exists (transparent_fs w) path = true -> __leading_fs w path = Delta.
Proof.
  intros Hp. unfold __leading_fs, _check_exists_and_where.
  destruct (path_tree_last path) as (pre & ->).
  destruct (check_loop_present w path pre true 0 Hp) as [-> | ->]; [done|].
  by destruct (er_exists _).
Qed.

(** C1. If some path of the ancestor chain of [p] (the chain ends with [p]
    itself) is missing from the transparent layer and has a [.deleted]
    marker there, [exists(p)] is [False], whatever the base layer holds. *)
Theorem deleted_ancestor_hides_path (delta base : FS) (p pt : string) :
  In pt (_get_path_tree p) ->
  fs_exists delta pt = false ->
  fs_exists delta (pt +:+ ".deleted") = true ->
  exists_ {| transparent_fs := delta; base_fs := base |} p = false.
Proof.
  intros Hin Hpt Hdel. unfold exists_, _check_exists_and_where.
  destruct (path_tree_shape p) as (anc & Heq & Hanc).
  rewrite Heq in Hin |- *.
  apply list_elem_of_In, elem_of_snoc_split in Hin as (pre & post & Hsplit & Hpre).
  rewrite Hsplit. apply check_loop_deleted; [|done..].
  rewrite Hpre. by apply Forall_take.
Qed.

(** C8. Whenever the resolution reports a deletion marker
    ([modification == 1]) it reports [exists == False] and
    [where == 0]. *)
Theorem deleted_result_consistent (w : overlay FS) (path : string) :
  er_modification (_check_exists_and_where w path) = 1 ->
  er_exists (_check_exists_and_where w path) = false /\
  er_where (_check_exists_and_where w path) = 0.
Proof. apply check_loop_modification. done. Qed.

End OverlayResolution.

Lemma deleted_ancestor_hides_path_witness :
  fs_exists Examples.base_xy "d/x" = true /\
  Transparent.exists_ Examples.overlay_no_d "d/x" = false.
Proof.
  split; [reflexivity|].
  apply (deleted_ancestor_hides_path Examples.delta_no_d Examples.base_xy "d/x" "d").
  - simpl. left. reflexivity.
  - reflexivity.
  - reflexivity.
Defined.

Lemma deleted_result_consistent_witness :
  Transparent.er_exists (Transparent._check_exists_and_where Examples.overlay_xz "d/x") = false /\
  Transparent.er_where (Transparent._check_exists_and_where Examples.overlay_xz "d/x") = 0.
Proof.
  apply (deleted_result_consistent Examples.overlay_xz "d/x"). reflexivity.
Defined.

(** ** The overlay: effects on the two layers *)

Section OverlayEffects.
Import Transparent.
Context {FS : Type} `{FileSystem FS}.

Lemma preserves_base_ret {A} (a : A) : preserves_base (FS := FS) (ret a).
Proof. by intros w. Qed.

Lemma preserves_base_raise {A} e : preserves_base (FS := FS) (raise (A := A) e).
Proof. by intros w. Qed.

Lemma preserves_base_lift {A} (r : result A) : preserves_base (FS := FS) (lift r).
Proof. by intros w. Qed.

Lemma preserves_base_gets {A} (f : overlay FS -> A) : preserves_base (gets f).
Proof. by intros w. Qed.

Lemma preserves_base_bind {A B} (m : M (overlay FS) A) (k : A -> M (overlay FS) B) :
  preserves_base m -> (forall a, preserves_base (k a)) -> preserves_base (bind m k).
Proof.
  intros Hm Hk w. unfold bind. specialize (Hm w).
  destruct (m w) as [w' [a|e]]; simpl in *; [|done].
  by rewrite Hk.
Qed.

(** Commands run on the transparent layer do not reach the base layer. *)
Lemma preserves_base_on_delta {A} (f : FS -> FS * result A) :
  preserves_base (on_layer Delta f).
Proof. intros w. unfold on_layer. by destruct (f (transparent_fs w)). Qed.

Hint Resolve preserves_base_ret preserves_base_raise preserves_base_lift
  preserves_base_gets preserves_base_bind preserves_base_on_delta : frame.

Lemma cp_file_preserves_base p1 p2 : preserves_base (cp_file p1 p2).
Proof.
  unfold cp_file. apply preserves_base_bind; [auto with frame|].
  intros fs. destruct (layer_eqb fs Delta); auto 10 with frame.
Qed.

Lemma rm_file_preserves_base p : preserves_base (rm_file p).
Proof.
  unfold rm_file. apply preserves_base_bind; [auto with frame|].
  intros fs. destruct (layer_eqb fs Delta); auto with frame.
Qed.

Lemma get_fs_for_open_preserves_base parent_of p method :
  preserves_base (__get_fs_for_open parent_of p method).
Proof.
  unfold __get_fs_for_open.
  destruct (Py.contains "w" method); [auto with frame|].
  destruct (Py.contains "a" method).
  - apply preserves_base_bind; [auto with frame|]. intros w.
    destruct (fs_exists _ _); [auto with frame|].
    apply preserves_base_bind; [|auto with frame].
    destruct (_ && _); [|auto with frame].
    apply preserves_base_bind; [auto with frame|].
    intros _. apply cp_file_preserves_base.
  - destruct (Py.contains "r" method); auto with frame.
Qed.

(** C2. [rm_file(p)] leaves the base layer as it was, so [base.exists(p)]
    is unchanged; what changes is the transparent layer: [p] is removed
    there when [p] resolves to it, and the marker [p + ".deleted"] is
    created there when [p] resolves to the base layer. *)
Theorem rm_file_never_mutates_base (w : overlay FS) (p : string) :
  base_fs (fst (rm_file p w)) = base_fs w /\
  fs_exists (base_fs (fst (rm_file p w))) p = fs_exists (base_fs w) p /\
  transparent_fs (fst (rm_file p w)) =
    match __leading_fs w p with
    | Delta => fst (fs_rm_file (transparent_fs w) p)
    | Base => fst (fs_touch (transparent_fs w) (p +:+ ".deleted"))
    end.
Proof.
  pose proof (rm_file_preserves_base p w) as Hbase.
  split; [done|]. split; [by rewrite Hbase|].
  unfold rm_file, bind, gets, on_layer, ret.
  destruct (__leading_fs w p); simpl.
  - by destruct (fs_rm_file _ _) as [d [[]|e]].
  - by destruct (fs_touch _ _) as [d [[]|e]].
Qed.

(** C4. Content written through [open(p, "w")] is what [read_text(p)]
    returns afterwards.  The stream is served by the transparent layer,
    after [mkdirs(parent, exist_ok=True)] there; the base layer is left
    alone, and the read resolves to the transparent layer. *)
Theorem write_then_read_text `{!FileSystemLaws FS} (parent_of : string -> string)
    (w w1 w2 : overlay FS) (p c : string) (h : handle) :
  open parent_of p "w" w = (w1, Ok h) ->
  write h c w1 = (w2, Ok tt) ->
  read_text p w2 = (w2, Ok c) /\
  h_layer h = Delta /\
  transparent_fs w1 = fst (fs_mkdirs (transparent_fs w) (parent_of p) true) /\
  transparent_fs w2 = fst (fs_write (transparent_fs w1) p "w" c) /\
  base_fs w2 = base_fs w /\
  __leading_fs w2 p = Delta.
Proof.
  unfold open, __get_fs_for_open, write. simpl Py.contains. cbv iota.
  unfold bind, on_layer, ret.
  destruct (fs_mkdirs (transparent_fs w) (parent_of p) true) as [d1 [[]|e]] eqn:Emk;
    [|discriminate].
  intros [= <- <-]. simpl.
  destruct (fs_write d1 p "w" c) as [d2 [[]|e]] eqn:Ewr; [|discriminate].
  intros [= <-].
  pose proof (fs_write_exists _ _ _ _ Ewr) as Hex.
  pose proof (fs_write_read _ _ _ _ Ewr) as Hrd.
  assert (Hlead : __leading_fs {| transparent_fs := d2; base_fs := base_fs w |} p = Delta)
    by (by apply leading_fs_present).
  repeat split; try done.
  unfold read_text, bind, gets, lift. simpl. rewrite Hlead. simpl. by rewrite Hrd.
Qed.

End OverlayEffects.

(** The in-memory filesystem keeps the write/read contract. *)
Section MemFSLaws.
Import MemFS.

Lemma get_set d p n : get (set d p n) p = Some n.
Proof.
  induction d as [|[k n'] d IH]; simpl.
  - by rewrite String.eqb_refl.
  - destruct (String.eqb_spec k p) as [->|Hk]; simpl.
    + by rewrite String.eqb_refl.
    + by destruct (String.eqb_spec k p).
Qed.

Lemma write_w d p c d' : write d p "w" c = (d', Ok tt) -> d' = set d p (File c).
Proof.
  unfold write. destruct (get d p) as [[old|]|]; simpl; congruence.
Qed.

#[global] Instance file_system_laws : FileSystemLaws MemFS.t.
Proof.
  split; intros d p c d' Hw; apply write_w in Hw as ->; simpl.
  - unfold exists_. by rewrite get_set.
  - unfold read_text. by rewrite get_set.
Qed.

End MemFSLaws.

Lemma write_then_read_text_witness :
  exists w1 w2 h,
    Transparent.open MemFS.parent_of "d/x" "w" Examples.overlay_xz = (w1, Ok h) /\
    Transparent.write h "new" w1 = (w2, Ok tt) /\
    Transparent.read_text "d/x" w2 = (w2, Ok "new").
Proof.
  eexists _, _, _. split; [reflexivity|]. split; [reflexivity|].
  eapply (write_then_read_text MemFS.parent_of Examples.overlay_xz); reflexivity.
Defined.

(** ** The overlay: listing and link existence *)

Section OverlayListing.
Import Transparent.
Context {FS : Type} `{FileSystem FS}.

(** A bare name in the base listing stops the dictionary comprehension. *)
Lemma ls_base_dict_name s rest out :
  ls_base_dict (VStr s :: rest) out =
    Raise (TypeError "string indices must be integers").
Proof. reflexivity. Qed.

(** A metadata dictionary in the listing of the transparent layer stops
    the merge loop. *)
Lemma ls_overlay_entry d rest out :
  ls_overlay (VDict d :: rest) out =
    Raise (AttributeError "object has no attribute 'endswith'").
Proof. reflexivity. Qed.

(** With either value of [detail], [ls] raises as soon as both layers
    list something of the shape that [detail] asks for: dictionaries for
    [detail=True], names for [detail=False]. *)
Lemma ls_raises_on_nonempty_listings (w : overlay FS) path (detail : bool)
    bi brest di drest :
  fs_ls (base_fs w) path (Some detail) = Ok (bi :: brest) ->
  fs_ls (transparent_fs w) path (Some detail) = Ok (di :: drest) ->
  (if detail then (exists d, di = VDict d) else (exists s, bi = VStr s)) ->
  exists e, ls w path detail = Raise e.
Proof.
  intros Hb Hd Hshape. unfold ls. rewrite Hb, Hd.
  destruct detail.
  - destruct Hshape as [d ->].
    destruct (ls_base_dict _ _); [|eauto]. rewrite ls_overlay_entry. eauto.
  - destruct Hshape as [s ->]. rewrite ls_base_dict_name. eauto.
Qed.

(** C10. [lexists(p)] raises [AttributeError]: neither the instance nor
    the class body binds [_get_filesystem], and the base class does not
    define it. *)
Theorem lexists_raises (bc : base_class) (p : string) (w : overlay FS) :
  "_get_filesystem" ∉ bc_names bc ->
  lexists bc p w =
    (w, Raise (AttributeError
      "'TransparentFileSystem' object has no attribute '_get_filesystem'")).
Proof.
  intros Hbc. unfold lexists.
  assert (Hno : hasattr_self bc "_get_filesystem" = false).
  { unfold hasattr_self. rewrite !existsb_app.
    replace (existsb _ (bc_names bc)) with false; [reflexivity|].
    symmetry. apply not_true_is_false. intros Hex.
    apply existsb_exists in Hex as (x & Hin & Heq).
    apply String.eqb_eq in Heq as <-. by apply Hbc, list_elem_of_In. }
  by rewrite Hno.
Qed.

End OverlayListing.

(** C3. On the listing of the specification (the base layer lists [d/x]
    and [d/y], the transparent layer holds [d/x.deleted] and [d/z]) [ls]
    returns no merged listing: it raises, with [detail=True] on the first
    item of the transparent layer, with [detail=False] on the first item of
    the base layer. *)
Theorem ls_merged_listing_raises :
  fs_ls Examples.base_xy "d" (Some false) = Ok [VStr "d/x"; VStr "d/y"] /\
  fs_ls Examples.delta_xz "d" (Some false) = Ok [VStr "d/x.deleted"; VStr "d/z"] /\
  Transparent.ls Examples.overlay_xz "d" true =
    Raise (AttributeError "object has no attribute 'endswith'") /\
  Transparent.ls Examples.overlay_xz "d" false =
    Raise (TypeError "string indices must be integers").
Proof. repeat split; reflexivity. Qed.

(** Each half of [ls] does its part of the merge when it gets the shape
    it expects, the base listing as dictionaries and the listing of the
    transparent layer as names: what is left are the keys [d/y] and [d/z]. *)
Lemma ls_halves_merge_example :
  exists base_items delta_items out out',
    fs_ls Examples.base_xy "d" (Some true) = Ok base_items /\
    fs_ls Examples.delta_xz "d" (Some false) = Ok delta_items /\
    Transparent.ls_base_dict base_items [] = Ok out /\
    Transparent.ls_overlay delta_items out = Ok out' /\
    Py.dict_keys out' = ["d/y"; "d/z"].
Proof. do 4 eexists. repeat split; reflexivity. Qed.

Lemma lexists_raises_witness :
  Transparent.lexists Examples.abstract_fs "d/x" Examples.overlay_xz =
    (Examples.overlay_xz,
     Raise (AttributeError
       "'TransparentFileSystem' object has no attribute '_get_filesystem'")).
Proof.
  apply (lexists_raises Examples.abstract_fs "d/x" Examples.overlay_xz).
  apply (bool_decide_unpack _). vm_compute. exact I.
Defined.

(** ** The router *)

Section Routing.
Import Nested.
Context {FS : Type} `{FileSystem FS}.

Lemma split1_shape s :
  (exists x, Py.split1 s = [x]) \/ (exists h r, Py.split1 s = [h; r]).
Proof.
  induction s as [|c r IH]; simpl; [eauto|].
  destruct (Ascii.eqb c Py.slash); [eauto|].
  destruct IH as [[x ->]|(h & t & ->)]; eauto.
Qed.

(** Without separator the only piece is the string itself. *)
Lemma split1_single s x : Py.split1 s = [x] -> x = s.
Proof.
  revert x. induction s as [|c r IH]; simpl; intros x; [congruence|].
  destruct (Ascii.eqb c Py.slash); [congruence|].
  destruct (split1_shape r) as [[y Hy]|(h & t & Hy)]; rewrite Hy.
  - intros [= <-]. by rewrite (IH y Hy).
  - congruence.
Qed.

(** Both splits agree on the first piece. *)
Lemma split1_first s : hd "" (Py.split1 s) = Py.first_segment s.
Proof.
  unfold Py.first_segment. induction s as [|c r IH]; simpl; [done|].
  destruct (Ascii.eqb c Py.slash); [done|].
  pose proof (split_nonempty r) as Hne.
  destruct (Py.split r) as [|h t]; [done|].
  destruct (split1_shape r) as [[y Hy]|(h' & t' & Hy)];
    rewrite Hy in IH |- *; simpl in *; by rewrite IH.
Qed.

(** C5. A path whose first segment is no mount key resolves to the
    default mount with the whole path as nested path, and [exists] asks
    the default filesystem about that whole path. *)
Theorem unmatched_path_goes_to_default (fss : mounts) (dfs : FS) (p : string) :
  lookup_fs fss "default" = Some dfs ->
  has_key fss (Py.first_segment p) = false ->
  _get_filesystem fss p = Ok ("default", "", p) /\
  exists_ p fss = (fss, Ok (fs_exists dfs p)).
Proof.
  intros Hdef Hseg.
  assert (Hres : _get_filesystem fss p = Ok ("default", "", p)).
  { assert (Hk : has_key fss "default" = true)
      by (unfold has_key; by rewrite Hdef).
    unfold _get_filesystem, subscript. rewrite Hk.
    rewrite <- split1_first in Hseg.
    destruct (split1_shape p) as [[x Hx]|(h & r & Hx)]; rewrite Hx in Hseg |- *;
      simpl in Hseg.
    - apply split1_single in Hx as ->. by rewrite Hseg.
    - by rewrite Hseg. }
  split; [done|].
  unfold exists_, bind, resolve, ask_mount. by rewrite Hres, Hdef.
Qed.

Lemma unpack2_tuple t :
  Py.unpack2 (as_tuple t) = Raise (ValueError "too many values to unpack (expected 2)").
Proof. by destruct t as [[fs root_path] nested_path]. Qed.

(** C6. [cp_file] and [mv] never get as far as comparing the two
    filesystems: unpacking the three values of [_get_filesystem] into two
    names raises for the first endpoint, whatever the paths. *)
Theorem cp_file_and_mv_raise (fss : mounts) (path1 path2 : string) :
  let outcome :=
    match _get_filesystem fss path1 with
    | Ok _ => Raise (ValueError "too many values to unpack (expected 2)")
    | Raise e => Raise e
    end in
  cp_file path1 path2 fss = (fss, outcome) /\
  mv path1 path2 fss = (fss, outcome).
Proof.
  unfold cp_file, mv, bind, resolve, lift.
  destruct (_get_filesystem fss path1) as [t|e]; simpl; [|done].
  by rewrite unpack2_tuple.
Qed.

Lemma rmdir_root (fss : mounts) :
  rmdir "" fss = (fss, Raise (ValueError "Cannot remove root path")).
Proof. reflexivity. Qed.

(** [rm("")] has no such guard: with no mount under the empty key it
    hands the removal of [""] to the default filesystem. *)
Lemma rm_root_delegates (fss : mounts) (dfs : FS) recursive maxdepth :
  lookup_fs fss "" = None ->
  lookup_fs fss "default" = Some dfs ->
  rm "" recursive maxdepth fss =
    (update_fs fss "default" (fst (fs_rm dfs "" recursive maxdepth)),
     snd (fs_rm dfs "" recursive maxdepth)).
Proof.
  intros Hroot Hdef.
  unfold rm, bind, resolve, _get_filesystem, subscript, has_key, on_mount.
  simpl. rewrite Hroot, Hdef. simpl. rewrite Hdef.
  destruct maxdepth; simpl; by destruct (fs_rm _ _ _ _).
Qed.

(** C9. Below the root, [walk] produces nothing and raises nothing. *)
Theorem walk_below_root_is_empty (fss : mounts) (p : string) (maxdepth : option Z) :
  p <> "" -> walk fss p maxdepth = ([], None).
Proof.
  intros Hp. unfold walk. by destruct (String.eqb_spec p "").
Qed.

End Routing.

Lemma unmatched_path_goes_to_default_witness :
  Nested._get_filesystem Examples.mounts_ab "q/f.txt" = Ok ("default", "", "q/f.txt") /\
  Nested.exists_ "q/f.txt" Examples.mounts_ab =
    (Examples.mounts_ab, Ok (fs_exists Examples.rooted "q/f.txt")).
Proof.
  apply (unmatched_path_goes_to_default Examples.mounts_ab Examples.rooted "q/f.txt");
    reflexivity.
Defined.

(** The same at concrete endpoints, on different mounts and on one mount. *)
Lemma cp_file_and_mv_raise_example :
  Nested.cp_file "a/d/x" "b/d/w" Examples.mounts_ab =
    (Examples.mounts_ab, Raise (ValueError "too many values to unpack (expected 2)")) /\
  Nested.mv "a/d/x" "a/d/w" Examples.mounts_ab =
    (Examples.mounts_ab, Raise (ValueError "too many values to unpack (expected 2)")).
Proof. split; reflexivity. Qed.

(** C7. Of the two removals only [rmdir] refuses the root: [rmdir("")]
    raises "Cannot remove root path", while [rm("", recursive=True)] is
    carried out by the default mount and empties it. *)
Theorem rm_root_reaches_default_mount :
  Nested.rmdir "" Examples.mounts_ab =
    (Examples.mounts_ab, Raise (ValueError "Cannot remove root path")) /\
  Nested.rm "" true None Examples.mounts_ab =
    ([("a", Examples.base_xy); ("b", Examples.delta_xz); ("default", [])], Ok tt).
Proof. split; reflexivity. Qed.

Lemma walk_below_root_is_empty_witness :
  Nested.walk Examples.mounts_ab "a" (Some 2) = ([], None).
Proof.
  apply (walk_below_root_is_empty Examples.mounts_ab "a" (Some 2)). discriminate.
Defined.

(** ** More on the path tree and on the resolution of the overlay *)

Section PathTreeMore.
Import Transparent.

Lemma append_assoc (a b c : string) : (a +:+ b) +:+ c = a +:+ (b +:+ c).
Proof.
  induction a as [|x a IH]; [done|].
  change (String x ((a +:+ b) +:+ c) = String x (a +:+ (b +:+ c))). by rewrite IH.
Qed.

Lemma prefix_append (a b : string) : String.prefix a (a +:+ b) = true.
Proof.
  induction a as [|x a IH]; [by destruct b|].
  change (String.prefix (String x a) (String x (a +:+ b)) = true).
  simpl. by destruct (ascii_dec x x).
Qed.

(** A common head does not matter to [prefix]. *)
Lemma prefix_append_cancel (a b c : string) :
  String.prefix (a +:+ b) (a +:+ c) = String.prefix b c.
Proof.
  induction a as [|x a IH]; [done|].
  change (String.prefix (String x (a +:+ b)) (String x (a +:+ c)) = String.prefix b c).
  simpl. by destruct (ascii_dec x x).
Qed.

Lemma join_app (l1 l2 : list string) :
  l1 <> [] -> l2 <> [] ->
  Py.join (l1 ++ l2) = Py.join l1 +:+ String Py.slash (Py.join l2).
Proof.
  induction l1 as [|x [|y l1] IH]; intros H1 H2; [done| |].
  - destruct l2; [done|]. reflexivity.
  - change ((x :: y :: l1) ++ l2) with (x :: (y :: l1) ++ l2).
    change ((y :: l1) ++ l2) with (y :: l1 ++ l2) at 1.
    rewrite join_cons. change (y :: l1 ++ l2) with ((y :: l1) ++ l2).
    rewrite IH by done. rewrite join_cons. by rewrite append_assoc.
Qed.

(** X1. The path tree has one entry per segment of the path; it ends
    with the path itself, and every entry before, followed by [/], is a
    prefix of the path. *)
Theorem path_tree_chain (p : string) :
  exists ancestors,
    _get_path_tree p = ancestors ++ [p] /\
    length (_get_path_tree p) = length (Py.split p) /\
    Forall (fun pt => String.prefix (pt +:+ "/") p = true) ancestors.
Proof.
  unfold _get_path_tree.
  pose proof (split_nonempty p) as Hne.
  pose proof (join_split p) as Hjoin.
  set (sp := Py.split p) in *.
  destruct (length sp) as [|n] eqn:Hlen; [by destruct sp|].
  exists (map (fun i => Py.join (take i sp)) (seq 1 n)). split; [|split].
  - rewrite seq_S, map_app. simpl. f_equal.
    by rewrite <- Hlen, firstn_all, Hjoin.
  - by rewrite length_map, length_seq.
  - apply Forall_forall. intros pt Hin.
    apply list_elem_of_fmap in Hin as (i & -> & Hi).
    apply list_elem_of_In, in_seq in Hi.
    rewrite <- Hjoin. rewrite <- (take_drop i sp) at 2.
    rewrite join_app.
    + change (String Py.slash (Py.join (drop i sp)))
        with ("/" +:+ Py.join (drop i sp)).
      rewrite <- append_assoc. apply prefix_append.
    + destruct sp, i; simpl in *; try lia; done.
    + intros E. apply (f_equal length) in E. rewrite length_drop in E.
      simpl in E. lia.
Qed.

End PathTreeMore.

Section OverlayResolutionMore.
Import Transparent Resolution.
Context {FS : Type} `{FileSystem FS}.

Lemma check_loop_sound (w : overlay FS) path pts cb m :
  er_exists (check_loop w path pts cb m) = true ->
  fs_exists (transparent_fs w) path = true \/ fs_exists (base_fs w) path = true.
Proof.
  revert cb m. induction pts as [|pt pts IH]; intros cb m.
  - simpl. destruct cb; simpl; auto. done.
  - loop_step; eauto; intros; subst; (congruence || auto).
Qed.

(** X2. The overlay invents no path: what [exists] reports is in the
    transparent layer or in the base layer. *)
Theorem exists_in_some_layer (w : overlay FS) (p : string) :
  exists_ w p = true ->
  fs_exists (transparent_fs w) p = true \/ fs_exists (base_fs w) p = true.
Proof. apply check_loop_sound. Qed.

Lemma check_loop_unmarked (w : overlay FS) path pts :
  fs_exists (transparent_fs w) path = false ->
  (forall pt, In pt pts ->
     fs_exists (transparent_fs w) (pt +:+ ".deleted") = false /\
     fs_exists (transparent_fs w) (pt +:+ ".replaced") = false) ->
  check_loop w path pts true 0 =
    {| er_exists := fs_exists (base_fs w) path; er_where := 1;
       er_modification := 0; er_path := path |}.
Proof.
  intros Hp. induction pts as [|pt pts IH]; intros Hm; [done|].
  destruct (Hm pt) as [Hd Hr]; [by left|].
  assert (IH' := IH (fun q Hq => Hm q (or_intror Hq))).
  simpl. rewrite Hd, Hr.
  destruct (fs_exists (transparent_fs w) pt) eqn:E; [|done].
  destruct (String.eqb_spec pt path) as [->|]; [congruence|done].
Qed.

(** X3. A path that the transparent layer neither holds nor marks, on
    any entry of its path tree, is answered by the base layer: existence,
    kind and content are the base layer's. *)
Theorem unmarked_path_is_answered_by_base (w : overlay FS) (p : string) :
  fs_exists (transparent_fs w) p = false ->
  (forall pt, In pt (_get_path_tree p) ->
     fs_exists (transparent_fs w) (pt +:+ ".deleted") = false /\
     fs_exists (transparent_fs w) (pt +:+ ".replaced") = false) ->
  _check_exists_and_where w p =
    {| er_exists := fs_exists (base_fs w) p; er_where := 1;
       er_modification := 0; er_path := p |} /\
  exists_ w p = fs_exists (base_fs w) p /\
  isdir w p = (fs_exists (base_fs w) p && fs_isdir (base_fs w) p) /\
  isfile w p = (fs_exists (base_fs w) p && fs_isfile (base_fs w) p) /\
  (fs_exists (base_fs w) p = true ->
   read_text p w = (w, fs_read_text (base_fs w) p)).
Proof.
  intros Hp Hm.
  pose proof (check_loop_unmarked w p _ Hp Hm) as Hres.
  fold (_check_exists_and_where w p) in Hres.
  split; [done|]. unfold exists_, isdir, isfile, read_text, __leading_fs, bind, gets, lift.
  rewrite Hres. simpl.
  repeat split; by destruct (fs_exists (base_fs w) p).
Qed.

(** X4. Reads of content follow the transparent layer as soon as it
    holds the path, whether or not the overlay reports the path as
    existing; the kind of the path is the transparent layer's when the
    overlay reports it. *)
Theorem present_path_is_read_from_delta (w : overlay FS) (p : string) :
  fs_exists (transparent_fs w) p = true ->
  read_text p w = (w, fs_read_text (transparent_fs w) p) /\
  isdir w p = (exists_ w p && fs_isdir (transparent_fs w) p) /\
  isfile w p = (exists_ w p && fs_isfile (transparent_fs w) p).
Proof.
  intros Hp. split.
  - unfold read_text, bind, gets, lift. by rewrite leading_fs_present.
  - unfold isdir, isfile, exists_, _check_exists_and_where.
    destruct (path_tree_last p) as (pre & ->).
    destruct (check_loop_present w p pre true 0 Hp) as [-> | ->]; [done|].
    by destruct (er_exists _).
Qed.

(** Once a replacement marker was seen the base layer has no say. *)
Lemma check_loop_shielded (w : overlay FS) path pts m :
  er_where (check_loop w path pts false m) = 0 /\
  (er_exists (check_loop w path pts false m) = true ->
   fs_exists (transparent_fs w) path = true).
Proof.
  revert m. induction pts as [|pt pts IH]; intros m; [by split|].
  simpl.
  destruct (fs_exists (transparent_fs w) pt) eqn:Ept.
  - destruct (String.eqb_spec pt path) as [<-|]; [by split|apply IH].
  - destruct (fs_exists _ (pt +:+ ".deleted")); [by split|].
    destruct (fs_exists _ (pt +:+ ".replaced")); apply IH.
Qed.

Lemma check_loop_replaced (w : overlay FS) path pre pt post cb m :
  fs_exists (transparent_fs w) pt = false ->
  fs_exists (transparent_fs w) (pt +:+ ".deleted") = false ->
  fs_exists (transparent_fs w) (pt +:+ ".replaced") = true ->
  er_where (check_loop w path (pre ++ pt :: post) cb m) = 0 /\
  (er_exists (check_loop w path (pre ++ pt :: post) cb m) = true ->
   fs_exists (transparent_fs w) path = true).
Proof.
  intros Hpt Hd Hr. revert cb m. induction pre as [|q pre IH]; intros cb m.
  - simpl. rewrite Hpt, Hd, Hr. apply check_loop_shielded.
  - simpl.
    destruct (fs_exists (transparent_fs w) q) eqn:Eq.
    + destruct (String.eqb_spec q path) as [<-|]; [by split|apply IH].
    + destruct (fs_exists _ (q +:+ ".deleted")); [by split|].
      destruct (fs_exists _ (q +:+ ".replaced")); apply IH.
Qed.

(** X5. Below a replaced ancestor (missing from the transparent layer,
    with a [.replaced] marker and no [.deleted] one) the base layer is not
    consulted: the transparent layer is authoritative, and the path exists
    only if the transparent layer holds it. *)
Theorem replaced_ancestor_shields_base (w : overlay FS) (p pt : string) :
  In pt (_get_path_tree p) ->
  fs_exists (transparent_fs w) pt = false ->
  fs_exists (transparent_fs w) (pt +:+ ".deleted") = false ->
  fs_exists (transparent_fs w) (pt +:+ ".replaced") = true ->
  er_where (_check_exists_and_where w p) = 0 /\
  __leading_fs w p = Delta /\
  (exists_ w p = true -> fs_exists (transparent_fs w) p = true).
Proof.
  intros Hin Hpt Hd Hr. unfold exists_, __leading_fs, _check_exists_and_where.
  apply list_elem_of_In, list_elem_of_split in Hin as (pre & post & ->).
  destruct (check_loop_replaced w p pre pt post true 0 Hpt Hd Hr) as [Hw Hex].
  rewrite Hw. split; [done|]. split; [|done]. by destruct (er_exists _).
Qed.

Lemma check_loop_wellformed (w : overlay FS) path pts cb m :
  (cb = true /\ m = 0) \/ (cb = false /\ m = 2) ->
  resolution_case w path pts (check_loop w path pts cb m).
Proof.
  revert cb m. induction pts as [|pt pts IH]; intros cb m Hinv.
  - unfold resolution_case. simpl.
    destruct Hinv as [[-> ->]|[-> ->]]; simpl; auto 10.
  - assert (Hrec : forall cb' m',
        (cb' = true /\ m' = 0) \/ (cb' = false /\ m' = 2) ->
        resolution_case w path (pt :: pts) (check_loop w path pts cb' m')).
    { intros cb' m' Hinv'. specialize (IH cb' m' Hinv').
      unfold resolution_case in *. simpl.
      destruct IH as [?|[?|[(?&?&?&?)|?]]]; auto 10. }
    simpl.
    destruct (fs_exists (transparent_fs w) pt) eqn:Ept.
    + destruct (String.eqb_spec pt path) as [<-|]; [|by apply Hrec].
      unfold resolution_case. simpl. auto 10.
    + destruct (fs_exists _ (pt +:+ ".deleted")).
      { unfold resolution_case. simpl. auto 10. }
      destruct (fs_exists _ (pt +:+ ".replaced")); apply Hrec; auto.
Qed.

(** X6. The resolution result is one of four: answered by the base layer
    ([where == 1], no modification, [exists] as the base layer says);
    found in the transparent layer; deleted, with [path] the marked entry
    of the path tree; or replaced and absent.  In the three last cases
    [where == 0]. *)
Theorem resolution_cases (w : overlay FS) (p : string) :
  let r := _check_exists_and_where w p in
  (er_where r = 1 /\ er_modification r = 0 /\ er_path r = p /\
   er_exists r = fs_exists (base_fs w) p) \/
  (er_where r = 0 /\ er_exists r = true /\ er_modification r = 0 /\
   er_path r = p /\ fs_exists (transparent_fs w) p = true) \/
  (er_where r = 0 /\ er_exists r = false /\ er_modification r = 1 /\
   In (er_path r) (_get_path_tree p)) \/
  (er_where r = 0 /\ er_exists r = false /\ er_modification r = 2 /\
   er_path r = p).
Proof. apply check_loop_wellformed. auto. Qed.

(** X7. Under a deleted ancestor a path is neither a directory nor a
    file, and reads are sent to the transparent layer, not to the base
    layer. *)
Theorem deleted_ancestor_hides_kind (w : overlay FS) (p pt : string) :
  In pt (_get_path_tree p) ->
  fs_exists (transparent_fs w) pt = false ->
  fs_exists (transparent_fs w) (pt +:+ ".deleted") = true ->
  isdir w p = false /\ isfile w p = false /\ __leading_fs w p = Delta.
Proof.
  intros Hin Hpt Hdel.
  assert (Hex : er_exists (_check_exists_and_where w p) = false).
  { unfold _check_exists_and_where.
    destruct (path_tree_shape p) as (anc & Heq & Hanc).
    rewrite Heq in Hin |- *.
    apply list_elem_of_In, elem_of_snoc_split in Hin as (pre & post & Hsplit & Hpre).
    rewrite Hsplit. apply check_loop_deleted; [|done..].
    rewrite Hpre. by apply Forall_take. }
  unfold isdir, isfile, __leading_fs. by rewrite Hex.
Qed.

End OverlayResolutionMore.

Lemma exists_in_some_layer_witness :
  fs_exists (Transparent.transparent_fs Examples.overlay_xz) "d/z" = true \/
  fs_exists (Transparent.base_fs Examples.overlay_xz) "d/z" = true.
Proof. apply (exists_in_some_layer Examples.overlay_xz "d/z"). reflexivity. Defined.

Lemma unmarked_path_is_answered_by_base_witness :
  Transparent.exists_ Examples.overlay_fresh "d/x" = true /\
  Transparent.read_text "d/x" Examples.overlay_fresh = (Examples.overlay_fresh, Ok "1").
Proof.
  destruct (unmarked_path_is_answered_by_base Examples.overlay_fresh "d/x")
    as (_ & Hex & _ & _ & Hrd).
  - reflexivity.
  - intros pt _. split; reflexivity.
  - split; [exact Hex | apply Hrd; reflexivity].
Defined.

Lemma present_path_is_read_from_delta_witness :
  Transparent.read_text "d/z" Examples.overlay_xz = (Examples.overlay_xz, Ok "3").
Proof.
  destruct (present_path_is_read_from_delta Examples.overlay_xz "d/z") as (Hrd & _).
  - reflexivity.
  - exact Hrd.
Defined.

Lemma replaced_ancestor_shields_base_witness :
  Transparent.__leading_fs Examples2.overlay_replaced "d/x" = Transparent.Delta /\
  Transparent.exists_ Examples2.overlay_replaced "d/x" = false.
Proof.
  destruct (replaced_ancestor_shields_base Examples2.overlay_replaced "d/x" "d")
    as (_ & Hl & _).
  - simpl. left. reflexivity.
  - reflexivity.
  - reflexivity.
  - reflexivity.
  - split; [exact Hl | reflexivity].
Defined.

Lemma deleted_ancestor_hides_kind_witness :
  fs_isfile Examples.base_xy "d/x" = true /\
  Transparent.isfile Examples.overlay_no_d "d/x" = false.
Proof.
  split; [reflexivity|].
  apply (deleted_ancestor_hides_kind Examples.overlay_no_d "d/x" "d").
  - simpl. left. reflexivity.
  - reflexivity.
  - reflexivity.
Defined.

(** ** The overlay: directories, writes and removals *)

Section OverlayWrites.
Import Transparent TransparentWrite.
Context {FS : Type} `{FileSystemOps FS}.

Hint Resolve preserves_base_ret preserves_base_raise preserves_base_lift
  preserves_base_gets preserves_base_bind preserves_base_on_delta
  cp_file_preserves_base rm_file_preserves_base
  get_fs_for_open_preserves_base : frame.

Lemma pre_mkdir_preserves_base parent_of p exist_ok :
  preserves_base (__pre_mkdir parent_of p exist_ok).
Proof.
  unfold __pre_mkdir. apply preserves_base_bind; [auto with frame|].
  intros out. destruct (er_exists out); [destruct exist_ok; auto with frame|].
  destruct (er_modification out =? 1); [auto 10 with frame|].
  destruct (er_modification out =? 2); [auto with frame|].
  apply preserves_base_bind; [auto with frame|].
  intros w. destruct (fs_isdir _ _); auto with frame.
Qed.

Lemma makedirs_preserves_base parent_of p exist_ok :
  preserves_base (makedirs parent_of p exist_ok).
Proof.
  unfold makedirs. apply preserves_base_bind; [apply pre_mkdir_preserves_base|].
  auto with frame.
Qed.

Lemma mkdir_preserves_base parent_of p : preserves_base (mkdir parent_of p).
Proof.
  unfold mkdir. apply preserves_base_bind; [apply pre_mkdir_preserves_base|].
  auto with frame.
Qed.

Lemma rmdir_preserves_base p : preserves_base (rmdir p).
Proof.
  unfold rmdir. apply preserves_base_bind; [auto with frame|]. intros w.
  apply preserves_base_bind.
  - destruct (fs_isdir _ _); auto with frame.
  - intros _. apply preserves_base_bind; [auto with frame|]. intros w'.
    destruct (fs_isdir _ _); auto with frame.
Qed.

Lemma rm_check_empty_preserves_base p : preserves_base (rm_check_empty p).
Proof.
  unfold rm_check_empty. apply preserves_base_bind; [auto with frame|]. intros w.
  destruct (negb _); [auto with frame|].
  apply preserves_base_bind; [auto with frame|]. intros listing.
  apply preserves_base_bind; [auto with frame|]. intros [a b].
  destruct (_ || _); auto with frame.
Qed.

Lemma rm_preserves_base p recursive maxdepth :
  preserves_base (rm p recursive maxdepth).
Proof.
  unfold rm. destruct maxdepth; [auto with frame|].
  apply preserves_base_bind.
  { destruct (negb recursive); [apply rm_check_empty_preserves_base|auto with frame]. }
  intros _. apply preserves_base_bind; [auto with frame|]. intros ex.
  destruct (negb (er_exists ex)); [auto with frame|].
  apply preserves_base_bind; [auto with frame|]. intros w.
  apply preserves_base_bind.
  { destruct (fs_exists _ _); auto with frame. }
  intros _. apply preserves_base_bind; [|auto with frame].
  destruct (er_where ex =? 0); [|auto with frame].
  apply preserves_base_bind; [auto with frame|]. intros _.
  apply preserves_base_bind; [auto with frame|]. intros w'.
  destruct (fs_exists _ _); auto with frame.
Qed.

Lemma mv_preserves_base p1 p2 : preserves_base (mv p1 p2).
Proof.
  unfold mv. apply preserves_base_bind; [auto with frame|]. intros fs.
  destruct (layer_eqb fs Delta); auto 10 with frame.
Qed.

(** X8. Creating and removing directories, removing, moving and copying
    paths, touching and uploading files, and opening a path in any mode
    leave the base layer as it was, whether they return or raise. *)
Theorem overlay_mutations_spare_base (parent_of : string -> string) :
  (forall p, preserves_base (mkdir parent_of p)) /\
  (forall p exist_ok, preserves_base (makedirs parent_of p exist_ok)) /\
  (forall p, preserves_base (rmdir p)) /\
  (forall p recursive maxdepth, preserves_base (rm p recursive maxdepth)) /\
  (forall p1 p2, preserves_base (mv p1 p2)) /\
  (forall p1 p2, preserves_base (cp_file p1 p2)) /\
  (forall p, preserves_base (touch parent_of p)) /\
  (forall lpath rpath, preserves_base (put_file parent_of lpath rpath)) /\
  (forall p method, preserves_base (open parent_of p method)).
Proof.
  repeat split; intros.
  - apply mkdir_preserves_base.
  - apply makedirs_preserves_base.
  - apply rmdir_preserves_base.
  - apply rm_preserves_base.
  - apply mv_preserves_base.
  - apply cp_file_preserves_base.
  - unfold touch, mkdirs.
    apply preserves_base_bind; [apply makedirs_preserves_base|auto with frame].
  - unfold put_file, mkdirs.
    apply preserves_base_bind; [apply makedirs_preserves_base|auto with frame].
  - unfold open. apply preserves_base_bind; [auto with frame|].
    intros [l|]; auto with frame.
Qed.

(** X9. [write_text] and [pipe_file] write where the path resolves to: a
    file that only the base layer holds (nothing for it in the transparent
    layer, no marker on its path tree) is written in the base layer, and
    the transparent layer stays as it was. *)
Theorem write_text_reaches_base (w : overlay FS) (p value : string) :
  fs_exists (base_fs w) p = true ->
  fs_exists (transparent_fs w) p = false ->
  (forall pt, In pt (_get_path_tree p) ->
     fs_exists (transparent_fs w) (pt +:+ ".deleted") = false /\
     fs_exists (transparent_fs w) (pt +:+ ".replaced") = false) ->
  write_text p value w =
    ({| transparent_fs := transparent_fs w;
        base_fs := fst (fs_write_text (base_fs w) p value) |},
     snd (fs_write_text (base_fs w) p value)) /\
  pipe_file p value w =
    ({| transparent_fs := transparent_fs w;
        base_fs := fst (fs_pipe_file (base_fs w) p value) |},
     snd (fs_pipe_file (base_fs w) p value)).
Proof.
  intros Hb Hd Hm.
  assert (Hl : __leading_fs w p = Base).
  { unfold __leading_fs, _check_exists_and_where.
    rewrite (check_loop_unmarked w p _ Hd Hm). simpl. by rewrite Hb. }
  unfold write_text, pipe_file, bind, gets, on_layer. rewrite Hl.
  split.
  - by destruct (fs_write_text _ _ _).
  - by destruct (fs_pipe_file _ _ _).
Qed.

(** X10. On a path that exists in the overlay, [mkdir] and
    [makedirs(exist_ok=False)] raise [FileExistsError] and change nothing,
    and [makedirs(exist_ok=True)] does no more than
    [mkdirs(path, exist_ok=True)] on the transparent layer. *)
Theorem mkdir_on_existing_path (parent_of : string -> string)
    (w : overlay FS) (p : string) :
  exists_ w p = true ->
  mkdir parent_of p w = (w, Raise (FileExistsError p)) /\
  makedirs parent_of p false w = (w, Raise (FileExistsError p)) /\
  makedirs parent_of p true w = on_layer Delta (fun d => fs_mkdirs d p true) w.
Proof.
  unfold exists_. intros Hex.
  unfold mkdir, makedirs, __pre_mkdir, bind, gets, raise, ret. rewrite Hex.
  done.
Qed.

(** X11. A directory made through the overlay at a place where the base
    layer has none cannot be removed with [rmdir]: it raises
    "Cannot remove directory" and changes nothing. *)
Theorem rmdir_after_mkdir_raises (parent_of : string -> string)
    (w w' : overlay FS) (p : string) :
  fs_isdir (base_fs w) p = false ->
  mkdir parent_of p w = (w', Ok tt) ->
  rmdir p w' = (w', Raise (ValueError "Cannot remove directory")).
Proof.
  intros Hb Hmk.
  pose proof (mkdir_preserves_base parent_of p w) as Hframe.
  rewrite Hmk in Hframe. simpl in Hframe.
  unfold rmdir, bind, gets, raise. simpl. by rewrite Hframe, Hb.
Qed.

End OverlayWrites.

Lemma write_text_reaches_base_witness :
  TransparentWrite.write_text "d/y" "v" Examples.overlay_fresh =
    ({| Transparent.transparent_fs := [];
        Transparent.base_fs := fst (fs_write_text Examples.base_xy "d/y" "v") |},
     snd (fs_write_text Examples.base_xy "d/y" "v")) /\
  fs_read_text (fst (fs_write_text Examples.base_xy "d/y" "v")) "d/y" = Ok "v".
Proof.
  split; [|reflexivity].
  apply (write_text_reaches_base Examples.overlay_fresh "d/y" "v").
  - reflexivity.
  - reflexivity.
  - intros pt _. split; reflexivity.
Defined.

Lemma mkdir_on_existing_path_witness :
  TransparentWrite.mkdir MemFS.parent_of "d/y" Examples.overlay_fresh =
    (Examples.overlay_fresh, Raise (FileExistsError "d/y")).
Proof.
  apply (mkdir_on_existing_path MemFS.parent_of Examples.overlay_fresh "d/y").
  reflexivity.
Defined.

Lemma rmdir_after_mkdir_raises_witness :
  exists w',
    TransparentWrite.mkdir MemFS.parent_of "fresh" Examples.overlay_fresh = (w', Ok tt) /\
    Transparent.isdir w' "fresh" = true /\
    TransparentWrite.rmdir "fresh" w' = (w', Raise (ValueError "Cannot remove directory")).
Proof.
  eexists. split; [reflexivity|]. split; [reflexivity|].
  apply (rmdir_after_mkdir_raises MemFS.parent_of Examples.overlay_fresh _ "fresh");
    reflexivity.
Defined.

(** ** The overlay: what a listing can hold *)

Section ListingValues.
Import Transparent Listing.

(** A dictionary built by [ls]: distinct keys, and every value true in
    the sense of Python, the name [""] apart. *)
Lemma dict_keys_set d k v :
  Py.dict_keys (Py.dict_set d k v) =
    if existsb (String.eqb k) (Py.dict_keys d) then Py.dict_keys d
    else Py.dict_keys d ++ [k].
Proof.
  unfold Py.dict_keys. induction d as [|[k' v'] d IH]; simpl; [done|].
  rewrite (String.eqb_sym k k').
  destruct (String.eqb_spec k' k) as [->|Hne]; simpl; [done|].
  rewrite IH. by destruct (existsb _ _).
Qed.

Lemma existsb_eqb_false k (l : list string) :
  existsb (String.eqb k) l = false -> ~ In k l.
Proof.
  intros Hex Hin. apply not_true_iff_false in Hex. apply Hex.
  apply existsb_exists. exists k. split; [done|apply String.eqb_refl].
Qed.

Lemma dict_set_ok d k v :
  dict_ok d -> entry_ok (k, v) -> dict_ok (Py.dict_set d k v).
Proof.
  intros [Hnd Hall] Hkv. split.
  - rewrite dict_keys_set. destruct (existsb _ _) eqn:Hex; [done|].
    apply NoDup_ListNoDup, NoDup_app. split; [by apply NoDup_ListNoDup|].
    split; [|apply NoDup_singleton].
    intros x Hx Hx'. apply list_elem_of_singleton in Hx' as ->.
    apply (existsb_eqb_false _ _ Hex). by apply list_elem_of_In.
  - clear Hnd. induction d as [|[k' v'] d IH]; simpl.
    + by constructor.
    + apply Forall_cons in Hall as [Hk' Hall].
      destruct (String.eqb_spec k' k) as [->|Hne]; constructor; auto.
Qed.

Lemma NoDup_map_filter {A B} (f : A -> B) (g : A -> bool) (l : list A) :
  List.NoDup (map f l) -> List.NoDup (map f (List.filter g l)).
Proof.
  induction l as [|x l IH]; intros Hnd; [constructor|].
  change (map f (x :: l)) with (f x :: map f l) in Hnd.
  apply List.NoDup_cons_iff in Hnd as [Hnin Hnd].
  change (List.filter g (x :: l))
    with (if g x then x :: List.filter g l else List.filter g l).
  destruct (g x); [|by apply IH].
  change (List.NoDup (f x :: map f (List.filter g l))).
  constructor; [|by apply IH].
  intros Hin. apply Hnin. apply in_map_iff in Hin as (y & Hy & Hin).
  apply filter_In in Hin as [Hin _]. rewrite <- Hy. by apply in_map.
Qed.

Lemma dict_del_ok d k d' :
  dict_ok d -> Py.dict_del d k = Ok d' -> dict_ok d'.
Proof.
  intros [Hnd Hall]. unfold Py.dict_del.
  destruct (Py.dict_get d k); [|done]. intros [= <-]. split.
  - by apply NoDup_map_filter.
  - apply Forall_forall. intros kv Hkv.
    apply list_elem_of_In, filter_In in Hkv as [Hkv _].
    rewrite Forall_forall in Hall. by apply Hall, list_elem_of_In.
Qed.

Lemma ls_base_dict_ok items out out' :
  dict_ok out -> ls_base_dict items out = Ok out' -> dict_ok out'.
Proof.
  revert out. induction items as [|item items IH]; intros out Hok; simpl.
  - by intros [= <-].
  - destruct (item_name item) as [n|e] eqn:Hn; [|done].
    apply IH, dict_set_ok; [done|]. left.
    destruct item as [| | | |l|d|]; simpl in Hn; try done.
    by destruct d.
Qed.

Lemma ls_overlay_ok items out out' :
  dict_ok out -> ls_overlay items out = Ok out' -> dict_ok out'.
Proof.
  revert out. induction items as [|item items IH]; intros out Hok; simpl.
  - by intros [= <-].
  - destruct item as [| | |name| | |]; try done.
    destruct (Py.endswith name ".deleted").
    { destruct (Py.dict_del out _) as [out1|e] eqn:Hdel; [|done].
      apply IH. by eapply dict_del_ok. }
    destruct (Py.endswith name ".replaced").
    { apply IH, dict_set_ok; [done|]. by left. }
    apply IH, dict_set_ok; [done|].
    unfold entry_ok. simpl. destruct (String.eqb_spec name ""); auto.
Qed.

(** Of two values that [ls] returns at least one is true for Python. *)
Lemma ls_pair_truthy {FS : Type} `{FileSystem FS} (w : overlay FS) p detail a b :
  ls w p detail = Ok [a; b] -> PyBool.truthy a || PyBool.truthy b = true.
Proof.
  unfold ls. destruct (fs_ls (base_fs w) p _) as [bi|]; [|done].
  destruct (ls_base_dict bi []) as [out|] eqn:Hb; [|done].
  destruct (fs_ls (transparent_fs w) p _) as [di|]; [|done].
  destruct (ls_overlay di out) as [out'|] eqn:Ho; [|done].
  intros [= Hv].
  assert (Hok : dict_ok out').
  { eapply ls_overlay_ok; [|done]. eapply ls_base_dict_ok; [|done].
    split; constructor. }
  destruct out' as [|[k1 v1] [|[k2 v2] [|]]]; try done.
  simpl in Hv. injection Hv as <- <-.
  destruct Hok as [Hnd Hall]. unfold Py.dict_keys in Hnd. simpl in Hnd.
  apply Forall_cons in Hall as [H1 Hall]. apply Forall_cons in Hall as [H2 _].
  unfold entry_ok in H1, H2. simpl in H1, H2.
  destruct H1 as [H1|H1]; [by rewrite H1|].
  destruct H2 as [H2|H2]; [by rewrite H2, orb_true_r|].
  subst. apply List.NoDup_cons_iff in Hnd as [Hnin _].
  exfalso. apply Hnin. by left.
Qed.

End ListingValues.

(** ** The overlay: removals *)

Section OverlayRemovals.
Import Transparent TransparentWrite.
Context {FS : Type} `{FileSystemOps FS}.

(** The emptiness test of a non-recursive [rm] lets nothing through. *)
Lemma rm_check_empty_raises (w : overlay FS) p :
  exists e, rm_check_empty p w = (w, Raise e).
Proof.
  unfold rm_check_empty, bind, gets, lift, raise, ret. simpl.
  destruct (negb (exists_ w p)); [eauto|].
  destruct (ls w p true) as [listing|e] eqn:Hls; [|eauto].
  destruct listing as [|a [|b [|c rest]]]; simpl; eauto.
  rewrite (ls_pair_truthy w p true a b Hls). eauto.
Qed.

Lemma rm_not_recursive_raises (w : overlay FS) p :
  exists e, rm p false None w = (w, Raise e).
Proof.
  unfold rm. simpl. unfold bind at 1.
  destruct (rm_check_empty_raises w p) as [e ->]. eauto.
Qed.

(** X12. [rm] returns only when called with [recursive=True] and without
    [maxdepth]: a non-recursive [rm] always raises, as does one with a
    [maxdepth], and neither changes anything. *)
Theorem rm_returns_only_when_recursive (w : overlay FS) (p : string)
    (recursive : bool) (maxdepth : option Z) :
  (recursive = false \/ maxdepth <> None) ->
  exists e, rm p recursive maxdepth w = (w, Raise e).
Proof.
  intros Hcase. unfold rm.
  destruct maxdepth as [n|]; [unfold raise; eauto|].
  destruct Hcase as [->|]; [|done]. apply rm_not_recursive_raises.
Qed.

End OverlayRemovals.

Lemma rm_returns_only_when_recursive_witness :
  exists e,
    TransparentWrite.rm "d/y" false None Examples.overlay_fresh =
      (Examples.overlay_fresh, Raise e).
Proof.
  apply (rm_returns_only_when_recursive Examples.overlay_fresh "d/y" false None).
  left. reflexivity.
Defined.

(** ** The overlay: removal and what is visible afterwards *)

Section OverlayAfterRemoval.
Import Transparent TransparentWrite.
Context {FS : Type} `{FileSystemOps FS} `{!FileSystemFileLaws FS}.

(** A path that resolves to the base layer is missing from the
    transparent layer and has no marker of its own there. *)
Lemma leading_base_unmarked (w : overlay FS) p :
  __leading_fs w p = Base ->
  exists_ w p = true /\
  er_where (_check_exists_and_where w p) = 1 /\
  fs_exists (transparent_fs w) p = false /\
  fs_exists (transparent_fs w) (p +:+ ".replaced") = false.
Proof.
  intros Hl.
  assert (Hex : exists_ w p = true /\ er_where (_check_exists_and_where w p) = 1).
  { unfold __leading_fs, exists_ in *.
    destruct (check_loop_wellformed w p (_get_path_tree p) true 0)
      as [(Hw & _)|[(Hw & _)|[(Hw & _)|(Hw & _)]]]; [auto|..];
      fold (_check_exists_and_where w p) in Hw;
      rewrite Hw in Hl; simpl in Hl; destruct (er_exists _); simpl in Hl; done. }
  destruct Hex as [Hex Hw]. split; [done|]. split; [done|].
  assert (Hd : fs_exists (transparent_fs w) p = false).
  { destruct (fs_exists (transparent_fs w) p) eqn:E; [|done].
    rewrite (leading_fs_present w p E) in Hl. done. }
  split; [done|].
  destruct (fs_exists (transparent_fs w) (p +:+ ".replaced")) eqn:Er; [|done].
  destruct (path_tree_shape p) as (anc & Htree & Hanc).
  destruct (fs_exists (transparent_fs w) (p +:+ ".deleted")) eqn:Ed.
  - unfold exists_, _check_exists_and_where in Hex. rewrite Htree in Hex.
    rewrite (check_loop_deleted w p anc p [] true 0 Hanc Hd Ed) in Hex. done.
  - unfold _check_exists_and_where in Hw. rewrite Htree in Hw.
    destruct (check_loop_replaced w p anc p [] true 0 Hd Ed Er) as [Hw0 _].
    rewrite Hw0 in Hw. done.
Qed.

Lemma marker_not_below p :
  String.prefix (p +:+ "/") (p +:+ ".deleted") = false.
Proof. by rewrite prefix_append_cancel. Qed.

Lemma marker_differs p : p <> p +:+ ".deleted".
Proof.
  intros E. apply (f_equal String.length) in E.
  rewrite length_append in E. simpl in E. lia.
Qed.

(** After [touch(p + ".deleted")] on a transparent layer without [p],
    the overlay reports [p] as absent. *)
Lemma marked_path_is_absent (d d' b : FS) p :
  fs_exists d p = false ->
  fs_touch d (p +:+ ".deleted") = (d', Ok tt) ->
  exists_ {| transparent_fs := d'; base_fs := b |} p = false.
Proof using Type*.
  intros Hd Ht.
  assert (Hm : fs_exists d' (p +:+ ".deleted") = true) by by eapply fs_touch_exists.
  assert (Hp : fs_exists d' p = false).
  { destruct (fs_exists d' p) eqn:E; [|done].
    destruct (fs_touch_adds _ _ _ _ Ht E) as [Hx|[Hx|Hx]].
    - congruence.
    - by apply marker_differs in Hx.
    - by rewrite marker_not_below in Hx. }
  unfold exists_, _check_exists_and_where.
  destruct (path_tree_shape p) as (anc & -> & Hanc).
  by apply check_loop_deleted.
Qed.

(** X13. Removing, with [rm_file], a file that resolves to the base layer
    hides it: afterwards the overlay reports it as absent, and the base
    layer still holds it. *)
Theorem rm_file_hides_base_path (w w' : overlay FS) (p : string) (v : pyval) :
  __leading_fs w p = Base ->
  rm_file p w = (w', Ok v) ->
  exists_ w' p = false /\
  base_fs w' = base_fs w /\
  fs_exists (base_fs w') p = true.
Proof using Type*.
  intros Hl Hrm.
  destruct (leading_base_unmarked w p Hl) as (Hex & Hw & Hd & _).
  assert (Hb : fs_exists (base_fs w) p = true).
  { destruct (check_loop_sound w p _ true 0 Hex); [congruence|done]. }
  unfold rm_file, bind, gets, on_layer, ret in Hrm. rewrite Hl in Hrm. simpl in Hrm.
  destruct (fs_touch (transparent_fs w) (p +:+ ".deleted")) as [d' [[]|e]] eqn:Ht;
    [|done].
  injection Hrm as <- _. simpl.
  split; [by eapply marked_path_is_absent|done].
Qed.

(** X14. Removing, with a recursive [rm], a path that resolves to the
    base layer hides it: afterwards the overlay reports it as absent, and
    the base layer still holds it. *)
Theorem rm_hides_base_path (w w' : overlay FS) (p : string) (v : pyval) :
  __leading_fs w p = Base ->
  rm p true None w = (w', Ok v) ->
  exists_ w' p = false /\
  base_fs w' = base_fs w /\
  fs_exists (base_fs w') p = true.
Proof using Type*.
  intros Hl Hrm.
  destruct (leading_base_unmarked w p Hl) as (Hex & Hw & Hd & Hr).
  assert (Hb : fs_exists (base_fs w) p = true).
  { destruct (check_loop_sound w p _ true 0 Hex); [congruence|done]. }
  unfold exists_ in Hex.
  unfold rm, bind, gets, on_layer, ret, raise in Hrm. simpl in Hrm.
  rewrite Hex in Hrm. simpl in Hrm. rewrite Hr in Hrm. simpl in Hrm.
  rewrite Hw in Hrm. simpl in Hrm.
  destruct (fs_touch (transparent_fs w) (p +:+ ".deleted")) as [d' [[]|e]] eqn:Ht;
    [|done].
  injection Hrm as <- _. simpl.
  split; [by eapply marked_path_is_absent|done].
Qed.

(** X15. Removing, with [rm_file], a file of the transparent layer that
    shadows a file of the base layer brings the base file back: with no
    marker on its path tree, the path still exists afterwards and is read
    from the base layer. *)
Theorem rm_file_unshadows_base_path (w w' : overlay FS) (p : string) (v : pyval) :
  fs_exists (transparent_fs w) p = true ->
  fs_exists (base_fs w) p = true ->
  (forall pt, In pt (_get_path_tree p) ->
     fs_exists (transparent_fs w) (pt +:+ ".deleted") = false /\
     fs_exists (transparent_fs w) (pt +:+ ".replaced") = false) ->
  rm_file p w = (w', Ok v) ->
  exists_ w' p = true /\
  __leading_fs w' p = Base /\
  read_text p w' = (w', fs_read_text (base_fs w) p).
Proof using Type*.
  intros Hd Hb Hm Hrm.
  unfold rm_file, bind, gets, on_layer, ret in Hrm.
  rewrite (leading_fs_present w p Hd) in Hrm. simpl in Hrm.
  destruct (fs_rm_file (transparent_fs w) p) as [d' [[]|e]] eqn:Hr; [|done].
  injection Hrm as <- _.
  set (w' := {| transparent_fs := d'; base_fs := base_fs w |}).
  assert (Hd' : fs_exists (transparent_fs w') p = false) by by eapply fs_rm_file_absent.
  assert (Hm' : forall pt, In pt (_get_path_tree p) ->
            fs_exists (transparent_fs w') (pt +:+ ".deleted") = false /\
            fs_exists (transparent_fs w') (pt +:+ ".replaced") = false).
  { intros pt Hpt. destruct (Hm pt Hpt) as [H1 H2]. simpl. split.
    - destruct (fs_exists d' _) eqn:E; [|done].
      apply (fs_rm_file_adds _ _ _ _ Hr) in E. congruence.
    - destruct (fs_exists d' _) eqn:E; [|done].
      apply (fs_rm_file_adds _ _ _ _ Hr) in E. congruence. }
  pose proof (check_loop_unmarked w' p _ Hd' Hm') as Hres.
  fold (_check_exists_and_where w' p) in Hres.
  unfold exists_, read_text, __leading_fs, bind, gets, lift.
  rewrite Hres. simpl. by rewrite Hb.
Qed.

End OverlayAfterRemoval.

(** ** The overlay: opening *)

Section OverlayOpen.
Import Transparent.
Context {FS : Type} `{FileSystem FS}.

(** X16. A stream opened for writing or appending is served by the
    transparent layer.  One opened for reading only is served by the layer
    the path resolves to, and opening it changes nothing.  A mode without
    [w], [a] and [r] makes [open] raise. *)
Theorem open_picks_layer (parent_of : string -> string) (w w' : overlay FS)
    (p method : string) (h : handle) :
  open parent_of p method w = (w', Ok h) ->
  h_path h = p /\ h_mode h = method /\
  (if Py.contains "w" method || Py.contains "a" method
   then h_layer h = Delta
   else Py.contains "r" method = true /\ h_layer h = __leading_fs w p /\ w' = w).
Proof.
  unfold open, __get_fs_for_open, bind, gets, ret, raise, on_layer.
  destruct (Py.contains "w" method); simpl.
  { destruct (fs_mkdirs _ _ _) as [d1 [[]|e]]; [|done]. by intros [= <- <-]. }
  destruct (Py.contains "a" method); simpl.
  { destruct (fs_exists (transparent_fs w) (p +:+ ".deleted")).
    - destruct (fs_rm _ _ _ _) as [d1 [[]|e]]; [|done]. by intros [= <- <-].
    - destruct (er_exists _ && _).
      + destruct (fs_mkdirs _ _ _) as [d1 [[]|e]]; [|done].
        destruct (cp_file p p _) as [w2 [[]|e]]; [|done]. by intros [= <- <-].
      + by intros [= <- <-]. }
  destruct (Py.contains "r" method); simpl; [|done].
  by intros [= <- <-].
Qed.

End OverlayOpen.

(** The in-memory filesystem keeps the laws of [touch] and [rm_file]. *)
Section MemFSFileLaws.
Import MemFS.

Lemma get_set_other d p q n : q <> p -> get (set d p n) q = get d q.
Proof.
  intros Hne. induction d as [|[k n'] d IH]; simpl.
  - by destruct (String.eqb_spec p q) as [->|].
  - destruct (String.eqb_spec k p) as [->|Hk]; simpl.
    + by destruct (String.eqb_spec p q) as [->|].
    + destruct (String.eqb_spec k q); [done|apply IH].
Qed.

Lemma get_del d p : get (del d p) p = None.
Proof.
  unfold del. induction d as [|[k n] d IH]; simpl; [done|].
  destruct (String.eqb_spec k p) as [->|Hk]; simpl; [done|].
  by destruct (String.eqb_spec k p).
Qed.

Lemma get_del_some d p q n : get (del d p) q = Some n -> get d q = Some n.
Proof.
  unfold del. induction d as [|[k n'] d IH]; simpl; [done|].
  destruct (String.eqb_spec k p) as [->|Hk]; simpl.
  - intros Hq. destruct (String.eqb_spec p q) as [->|]; [|by apply IH].
    pose proof (get_del d q) as Hn. unfold del in Hn. congruence.
  - destruct (String.eqb_spec k q); [done|apply IH].
Qed.

#[global] Instance file_system_file_laws : FileSystemFileLaws MemFS.t.
Proof.
  split.
  - intros d q d'. simpl. unfold touch, exists_.
    destruct (get d q) as [[c|]|]; intros [= <-]; by rewrite get_set.
  - intros d q d' q'. simpl. unfold touch, exists_.
    destruct (decide (q' = q)) as [->|Hne]; [auto|].
    destruct (get d q) as [[c|]|]; intros [= <-] Hq; left;
      by rewrite get_set_other in Hq.
  - intros d q d'. simpl. unfold rm_file, exists_.
    destruct (get d q) as [[c|]|]; intros [= <-]. by rewrite get_del.
  - intros d q d' q'. simpl. unfold rm_file, exists_.
    destruct (get d q) as [[c|]|]; intros [= <-].
    destruct (get (del d q) q') eqn:E; [|done].
    by rewrite (get_del_some _ _ _ _ E).
Qed.

End MemFSFileLaws.

Lemma rm_file_hides_base_path_witness :
  exists w',
    Transparent.rm_file "d/y" Examples.overlay_fresh = (w', Ok (VBool true)) /\
    Transparent.exists_ w' "d/y" = false /\
    Transparent.base_fs w' = Examples.base_xy /\
    fs_exists (Transparent.base_fs w') "d/y" = true.
Proof.
  eexists. split; [reflexivity|].
  eapply (rm_file_hides_base_path Examples.overlay_fresh _ "d/y" (VBool true));
    reflexivity.
Defined.

Lemma rm_hides_base_path_witness :
  exists w',
    TransparentWrite.rm "d/y" true None Examples.overlay_fresh = (w', Ok (VBool true)) /\
    Transparent.exists_ w' "d/y" = false /\
    Transparent.base_fs w' = Examples.base_xy /\
    fs_exists (Transparent.base_fs w') "d/y" = true.
Proof.
  eexists. split; [reflexivity|].
  eapply (rm_hides_base_path Examples.overlay_fresh _ "d/y" (VBool true));
    reflexivity.
Defined.

Lemma rm_file_unshadows_base_path_witness :
  exists w',
    Transparent.rm_file "d/x" Examples2.overlay_shadow = (w', Ok VNone) /\
    Transparent.exists_ w' "d/x" = true /\
    Transparent.__leading_fs w' "d/x" = Transparent.Base /\
    Transparent.read_text "d/x" w' = (w', fs_read_text Examples.base_xy "d/x").
Proof.
  eexists. split; [reflexivity|].
  eapply (rm_file_unshadows_base_path Examples2.overlay_shadow _ "d/x" VNone).
  - reflexivity.
  - reflexivity.
  - intros pt Hin. simpl in Hin.
    destruct Hin as [<-|[<-|[]]]; split; reflexivity.
  - reflexivity.
Defined.

Lemma open_picks_layer_witness :
  exists w' h,
    Transparent.open MemFS.parent_of "d/y" "rb" Examples.overlay_fresh = (w', Ok h) /\
    Transparent.h_layer h = Transparent.Base /\ w' = Examples.overlay_fresh.
Proof.
  eexists _, _. split; [reflexivity|].
  destruct (open_picks_layer MemFS.parent_of Examples.overlay_fresh _ "d/y" "rb" _ eq_refl)
    as (_ & _ & _ & Hl & Hw).
  split; [exact Hl | exact Hw].
Defined.

(** ** The overlay: a new directory beside mirrored ones *)

Section OverlayMkdir.
Import Transparent TransparentWrite.
Context {FS : Type} `{FileSystemOps FS} `{!FileSystemDirLaws FS}.

(** X17. Making a new directory fails when its parent is a directory of
    the base layer that the transparent layer holds as well: the pre-step
    calls [mkdirs(parent)] without [exist_ok] on the transparent layer,
    and [mkdir] and [makedirs] raise [FileExistsError] for the parent,
    changing nothing. *)
Theorem mkdir_beside_mirrored_parent_raises (parent_of : string -> string)
    (w : overlay FS) (p : string) (exist_ok : bool) :
  fs_exists (transparent_fs w) p = false ->
  fs_exists (base_fs w) p = false ->
  (forall pt, In pt (_get_path_tree p) ->
     fs_exists (transparent_fs w) (pt +:+ ".deleted") = false /\
     fs_exists (transparent_fs w) (pt +:+ ".replaced") = false) ->
  fs_isdir (base_fs w) (parent_of p) = true ->
  fs_exists (transparent_fs w) (parent_of p) = true ->
  mkdir parent_of p w = (w, Raise (FileExistsError (parent_of p))) /\
  makedirs parent_of p exist_ok w = (w, Raise (FileExistsError (parent_of p))).
Proof using Type*.
  intros Hd Hb Hm Hpb Hpd.
  pose proof (check_loop_unmarked w p _ Hd Hm) as Hres.
  fold (_check_exists_and_where w p) in Hres.
  unfold mkdir, makedirs, __pre_mkdir, bind, gets, on_layer.
  rewrite Hres. simpl. rewrite Hb, Hpb.
  rewrite (fs_mkdirs_existing _ _ Hpd). by destruct w.
Qed.

End OverlayMkdir.

Section MemFSDirLaws.
Import MemFS.

#[global] Instance file_system_dir_laws : FileSystemDirLaws MemFS.t.
Proof.
  split. intros d q. simpl. unfold exists_, mkdirs.
  by destruct (get d q) as [[c|]|].
Qed.

End MemFSDirLaws.

Lemma mkdir_beside_mirrored_parent_raises_witness :
  TransparentWrite.mkdir MemFS.parent_of "d/new" Examples.overlay_xz =
    (Examples.overlay_xz, Raise (FileExistsError "d")) /\
  TransparentWrite.makedirs MemFS.parent_of "d/new" true Examples.overlay_xz =
    (Examples.overlay_xz, Raise (FileExistsError "d")).
Proof.
  apply (mkdir_beside_mirrored_parent_raises MemFS.parent_of Examples.overlay_xz "d/new" true).
  - reflexivity.
  - reflexivity.
  - intros pt Hin. simpl in Hin.
    destruct Hin as [<-|[<-|[]]]; split; reflexivity.
  - reflexivity.
  - reflexivity.
Defined.

(** ** The overlay: the tree walk *)

Section OverlayWalk.
Import Transparent TransparentWalk.
Context {FS : Type} `{FileSystem FS}.

Lemma out_store_list keys k v : exists e, out_store (OutList keys) k v = Raise e.
Proof. simpl. eauto. Qed.

(** A marker directory stops the loop, whatever [out] holds. *)
Lemma walk_step_marker out base_path dirs files :
  Py.endswith base_path ".deleted" = true \/
  Py.endswith base_path ".replaced" = true ->
  exists e, walk_step out (base_path, dirs, files) = Raise e.
Proof.
  intros Hm. unfold walk_step, prune.
  destruct (Py.endswith base_path ".deleted"); [apply out_store_list|].
  destruct Hm as [Hm|Hm]; [done|]. rewrite Hm.
  destruct (out_contains _ _); simpl; eauto.
Qed.

Lemma walk_loop_marker out entries base_path dirs files :
  In (base_path, dirs, files) entries ->
  Py.endswith base_path ".deleted" = true \/
  Py.endswith base_path ".replaced" = true ->
  exists e, walk_loop out entries = Raise e.
Proof.
  intros Hin Hm. revert out.
  induction entries as [|entry entries IH]; intros out; [done|].
  simpl. destruct Hin as [->|Hin].
  - destruct (walk_step_marker out base_path dirs files Hm) as [e ->]. eauto.
  - destruct (walk_step out entry); [by apply IH|eauto].
Qed.

(** X18. [walk] raises as soon as the walk of the transparent layer
    contains a directory whose path ends in [.deleted] or [.replaced]:
    the marker turns [out] into a list, and the next statement indexes it
    by a path. *)
Theorem walk_raises_on_marker_directory (w : overlay FS) (path : string)
    (maxdepth : option Z) (base_path : string) (dirs files : list string) :
  In (base_path, dirs, files) (fs_walk (transparent_fs w) "" maxdepth) ->
  Py.endswith base_path ".deleted" = true \/
  Py.endswith base_path ".replaced" = true ->
  exists e, walk w path maxdepth = Raise e.
Proof.
  intros Hin Hm. unfold walk.
  destruct (walk_loop_marker (OutDict (walk_base (fs_walk (base_fs w) "" maxdepth)))
              _ _ _ _ Hin Hm) as [e ->].
  eauto.
Qed.

End OverlayWalk.

Lemma walk_raises_on_marker_directory_witness :
  exists e, TransparentWalk.walk Examples.overlay_no_d "d" None = Raise e.
Proof.
  apply (walk_raises_on_marker_directory Examples.overlay_no_d "d" None
           "d.deleted" [] []).
  - simpl. right. left. reflexivity.
  - left. reflexivity.
Defined.

(** ** The router: resolution *)

Section RoutingResolution.
Import Nested NestedOps.
Context {FS : Type} `{FileSystemOps FS}.

Lemma contains_cons c x s :
  Py.contains c (String x s) = false -> Ascii.eqb x c = false /\ Py.contains c s = false.
Proof.
  simpl. rewrite (Ascii.eqb_sym c x). intros Hc. by apply orb_false_elim in Hc.
Qed.

(** The first cut of [key/rest], for a key without separator. *)
Lemma split1_key key rest :
  Py.contains Py.slash key = false ->
  Py.split1 (key +:+ "/" +:+ rest) = [key; rest].
Proof.
  induction key as [|x key IH]; intros Hc; [done|].
  apply contains_cons in Hc as [Hx Hc].
  change (String x key +:+ "/" +:+ rest) with (String x (key +:+ "/" +:+ rest)).
  simpl. rewrite Hx. by rewrite (IH Hc).
Qed.

Lemma split1_noslash s : Py.contains Py.slash s = false -> Py.split1 s = [s].
Proof.
  induction s as [|x s IH]; intros Hc; [done|].
  apply contains_cons in Hc as [Hx Hc]. simpl. rewrite Hx. by rewrite (IH Hc).
Qed.

Lemma split_noslash s : Py.contains Py.slash s = false -> Py.split s = [s].
Proof.
  induction s as [|x s IH]; intros Hc; [done|].
  apply contains_cons in Hc as [Hx Hc]. simpl. rewrite Hx. by rewrite (IH Hc).
Qed.

(** What the pieces of the first cut say about the string. *)
Lemma contains_slash_cons c s :
  c <> Py.slash -> Py.contains Py.slash (String c s) = Py.contains Py.slash s.
Proof.
  intros Hc. change (Py.contains Py.slash (String c s))
    with (Ascii.eqb Py.slash c || Py.contains Py.slash s).
  destruct (Ascii.eqb_spec Py.slash c) as [E|]; [by symmetry in E|done].
Qed.

Lemma split1_single_noslash s x : Py.split1 s = [x] -> Py.contains Py.slash s = false.
Proof.
  revert x. induction s as [|c s IH]; intros x; [done|].
  change (Py.split1 (String c s)) with
    (if Ascii.eqb c Py.slash then [""; s]
     else match Py.split1 s with
          | [h] => [String c h]
          | h :: t => String c h :: t
          | [] => [String c ""]
          end).
  destruct (Ascii.eqb_spec c Py.slash) as [->|Hc]; [done|].
  rewrite contains_slash_cons by done.
  destruct (split1_shape s) as [[y Hy]|(h & t & Hy)]; rewrite Hy; [|done].
  intros _. by apply (IH y).
Qed.

Lemma split1_pair s h r :
  Py.split1 s = [h; r] -> Py.contains Py.slash h = false /\ s = h +:+ "/" +:+ r.
Proof.
  revert h. induction s as [|c s IH]; intros h; [done|].
  change (Py.split1 (String c s)) with
    (if Ascii.eqb c Py.slash then [""; s]
     else match Py.split1 s with
          | [h] => [String c h]
          | h :: t => String c h :: t
          | [] => [String c ""]
          end).
  destruct (Ascii.eqb_spec c Py.slash) as [->|Hc].
  - by intros [= <- <-].
  - destruct (split1_shape s) as [[y Hy]|(h' & t & Hy)]; rewrite Hy; [done|].
    intros [= <- <-]. destruct (IH h' Hy) as [Hh ->]. split; [|done].
    by rewrite contains_slash_cons.
Qed.

(** X19. The router strips a matched mount key: for a mount [key] without
    separator, [key/rest] resolves to that mount with nested path [rest],
    [key] alone resolves to it with the empty nested path, and existence
    and content of [key/rest] are those of [rest] in the mount's
    filesystem. *)
Theorem mount_key_is_stripped (fss : @mounts FS) (fs : FS) (key rest : string) :
  lookup_fs fss key = Some fs ->
  Py.contains Py.slash key = false ->
  _get_filesystem fss (key +:+ "/" +:+ rest) = Ok (key, key, rest) /\
  _get_filesystem fss key = Ok (key, key, "") /\
  exists_ (key +:+ "/" +:+ rest) fss = (fss, Ok (fs_exists fs rest)) /\
  isdir (key +:+ "/" +:+ rest) fss = (fss, Ok (fs_isdir fs rest)) /\
  read_text (key +:+ "/" +:+ rest) fss = (fss, fs_read_text fs rest).
Proof.
  intros Hfs Hkey.
  assert (Hk : has_key fss key = true) by (unfold has_key; by rewrite Hfs).
  assert (H1 : _get_filesystem fss (key +:+ "/" +:+ rest) = Ok (key, key, rest)).
  { unfold _get_filesystem. rewrite split1_key by done. by rewrite Hk. }
  assert (H2 : _get_filesystem fss key = Ok (key, key, "")).
  { unfold _get_filesystem. rewrite split1_noslash by done. by rewrite Hk. }
  split; [done|]. split; [done|].
  unfold exists_, isdir, read_text, bind, resolve, ask_mount, lift.
  rewrite H1, Hfs. simpl. by destruct (fs_read_text fs rest).
Qed.

(** X20. What a resolution returns: the mount is one of the table, its
    key has no separator, and either the key was cut off the path (the
    path is the key, or the key, [/] and the nested path) or the path went
    whole to the default mount because its first segment is no mount
    key. *)
Theorem resolution_decomposes (fss : @mounts FS) (p k root nested : string) :
  _get_filesystem fss p = Ok (k, root, nested) ->
  has_key fss k = true /\
  ((k = root /\ Py.contains Py.slash k = false /\
    ((p = root /\ nested = "") \/ p = root +:+ "/" +:+ nested)) \/
   (k = "default" /\ root = "" /\ nested = p /\
    has_key fss (Py.first_segment p) = false)).
Proof.
  unfold _get_filesystem, subscript. rewrite <- split1_first.
  destruct (split1_shape p) as [[x Hx]|(h & r & Hx)]; rewrite Hx; simpl.
  - pose proof (split1_single_noslash _ _ Hx) as Hns.
    apply split1_single in Hx as ->.
    destruct (has_key fss p) eqn:Hp.
    + intros [= <- <- <-]. split; [done|]. left. auto.
    + destruct (has_key fss "default") eqn:Hd; [|done].
      intros [= <- <- <-]. split; [done|]. right. auto.
  - destruct (split1_pair _ _ _ Hx) as [Hns ->].
    destruct (has_key fss h) eqn:Hh.
    + intros [= <- <- <-]. split; [done|]. left. auto.
    + destruct (has_key fss "default") eqn:Hd; [|done].
      intros [= <- <- <-]. split; [done|]. right. auto.
Qed.

(** X21. Resolution raises exactly when neither the first segment of the
    path nor ["default"] is a mount key, and then with
    [KeyError("default")]. *)
Theorem resolution_fails_without_default (fss : @mounts FS) (p : string) (e : exn) :
  _get_filesystem fss p = Raise e <->
  e = KeyError "default" /\
  has_key fss (Py.first_segment p) = false /\
  has_key fss "default" = false.
Proof.
  unfold _get_filesystem, subscript. rewrite <- split1_first.
  destruct (split1_shape p) as [[x Hx]|(h & r & Hx)]; rewrite Hx; simpl.
  - apply split1_single in Hx as ->.
    destruct (has_key fss p); [split; [done|by intros (_ & ? & _)]|].
    destruct (has_key fss "default"); [split; [done|by intros (_ & _ & ?)]|].
    split; [by intros [= <-]|by intros (-> & _)].
  - destruct (has_key fss h); [split; [done|by intros (_ & ? & _)]|].
    destruct (has_key fss "default"); [split; [done|by intros (_ & _ & ?)]|].
    split; [by intros [= <-]|by intros (-> & _)].
Qed.

(** X22. With a [maxdepth], [rm] below a mount counts the mount key as
    one level: for a non-empty mount key without separator,
    [rm(key/rest, maxdepth=n)] asks the mount for
    [rm(rest, maxdepth=n-1)]. *)
Theorem rm_maxdepth_below_mount (fss : @mounts FS) (fs : FS) (key rest : string)
    (recursive : bool) (n : Z) :
  lookup_fs fss key = Some fs ->
  Py.contains Py.slash key = false ->
  key <> "" ->
  rm (key +:+ "/" +:+ rest) recursive (Some n) fss =
    on_mount key (fun s => fs_rm s rest recursive (Some (n - 1))) fss.
Proof.
  intros Hfs Hkey Hne.
  assert (Hk : has_key fss key = true) by (unfold has_key; by rewrite Hfs).
  unfold rm, bind, resolve, _get_filesystem.
  rewrite split1_key by done. rewrite Hk.
  destruct (String.eqb_spec key "") as [|_]; [done|]. simpl.
  by rewrite split_noslash.
Qed.

End RoutingResolution.

Lemma mount_key_is_stripped_witness :
  Nested._get_filesystem Examples.mounts_ab "a/d/x" = Ok ("a", "a", "d/x") /\
  NestedOps.read_text "a/d/x" Examples.mounts_ab = (Examples.mounts_ab, Ok "1").
Proof.
  destruct (mount_key_is_stripped Examples.mounts_ab Examples.base_xy "a" "d/x")
    as (H1 & _ & _ & _ & H5).
  - reflexivity.
  - reflexivity.
  - split; [exact H1 | exact H5].
Defined.

Lemma resolution_decomposes_witness :
  Nested.has_key Examples.mounts_ab "b" = true.
Proof.
  apply (resolution_decomposes Examples.mounts_ab "b/d/z" "b" "b" "d/z"). reflexivity.
Defined.

Lemma rm_maxdepth_below_mount_witness :
  Nested.rm "a/d" true (Some 3) Examples.mounts_ab =
    Nested.on_mount "a" (fun s => fs_rm s "d" true (Some 2)) Examples.mounts_ab.
Proof.
  apply (rm_maxdepth_below_mount Examples.mounts_ab Examples.base_xy "a" "d" true 3).
  - reflexivity.
  - reflexivity.
  - discriminate.
Defined.

Lemma resolution_fails_without_default_witness :
  Nested._get_filesystem [("a", Examples.base_xy)] "q/f.txt" = Raise (KeyError "default").
Proof.
  apply (resolution_fails_without_default [("a", Examples.base_xy)] "q/f.txt").
  repeat split; reflexivity.
Defined.

(** ** The router: the other mounts *)

Section RoutingIsolation.
Import Nested NestedOps Isolation.
Context {FS : Type} `{FileSystemOps FS}.

Lemma update_fs_keys (fss : @mounts FS) k fs' : map fst (update_fs fss k fs') = map fst fss.
Proof.
  induction fss as [|[k' fs] fss IH]; [done|].
  simpl. destruct (String.eqb k' k); simpl; by rewrite ?IH.
Qed.

Lemma update_fs_other (fss : @mounts FS) k k' fs' :
  k' <> k -> lookup_fs (update_fs fss k fs') k' = lookup_fs fss k'.
Proof.
  intros Hne. induction fss as [|[k0 fs] fss IH]; [done|].
  simpl. destruct (String.eqb_spec k0 k) as [->|Hk0]; simpl.
  - by destruct (String.eqb_spec k k') as [->|].
  - by rewrite IH.
Qed.

(** A command run on one mount keeps the keys and the other mounts. *)
Lemma on_mount_isolated {A} (fss : @mounts FS) k (f : FS -> FS * result A) :
  map fst (fst (on_mount k f fss)) = map fst fss /\
  forall k', k' <> k -> lookup_fs (fst (on_mount k f fss)) k' = lookup_fs fss k'.
Proof.
  unfold on_mount. destruct (lookup_fs fss k) as [fs|]; [|done].
  destruct (f fs) as [fs' r]. simpl. split; [apply update_fs_keys|].
  intros k' Hne. by apply update_fs_other.
Qed.

(** Resolving, then running a command on the resolved mount. *)
Lemma delegate_isolated {A} (f : string -> FS -> FS * result A) :
  changes_resolved_mount_only
    (fun p => let* '(fs, root_path, nested_path) := resolve p in
              on_mount fs (f nested_path)).
Proof.
  intros fss p. unfold bind, resolve.
  destruct (_get_filesystem fss p) as [[[k root] nested]|e] eqn:Hres; [|done].
  destruct (on_mount_isolated fss k (f nested)) as [Hkeys Hother].
  split; [done|]. intros k' Hk'. apply Hother. intros ->. by apply (Hk' root nested).
Qed.

(** X23. Every routed change stays in one mount: making and removing
    directories, writing, touching and removing files keep the keys of the
    mount table and leave every mount other than the resolved one
    untouched, whether they return or raise. *)
Theorem routed_changes_stay_in_one_mount :
  changes_resolved_mount_only mkdir /\
  (forall exist_ok, changes_resolved_mount_only (fun p => makedirs p exist_ok)) /\
  (forall value, changes_resolved_mount_only (fun p => write_text p value)) /\
  (forall value, changes_resolved_mount_only (fun p => pipe_file p value)) /\
  changes_resolved_mount_only touch /\
  changes_resolved_mount_only rm_file /\
  changes_resolved_mount_only Nested.rmdir /\
  (forall recursive maxdepth,
     changes_resolved_mount_only (fun p => Nested.rm p recursive maxdepth)).
Proof.
  split; [apply (delegate_isolated (fun np s => fs_mkdir s np))|].
  split; [intros e; apply (delegate_isolated (fun np s => fs_makedirs s np e))|].
  split; [intros v; apply (delegate_isolated (fun np s => fs_write_text s np v))|].
  split; [intros v; apply (delegate_isolated (fun np s => fs_pipe_file s np v))|].
  split; [apply (delegate_isolated (fun np s => fs_touch s np))|].
  split; [apply (delegate_isolated (fun np s => fs_rm_file s np))|].
  split.
  - intros fss p. unfold rmdir. destruct (String.eqb p ""); [done|].
    apply (delegate_isolated (fun np s => fs_rmdir s np) fss p).
  - intros recursive maxdepth fss p. unfold rm, bind, resolve.
    destruct (_get_filesystem fss p) as [[[k root] nested]|e] eqn:Hres; [|done].
    match goal with |- context [on_mount k ?f fss] =>
      destruct (on_mount_isolated fss k f) as [Hkeys Hother] end.
    split; [done|]. intros k' Hk'. apply Hother. intros ->. by apply (Hk' root nested).
Qed.

(** X24. At the root, [walk] called without [maxdepth] raises [TypeError]
    once the default mount has been walked, whenever there is a mount
    other than the default one: [maxdepth - 1] is computed with
    [maxdepth] being [None]. *)
Theorem walk_root_without_maxdepth_raises (fss : @mounts FS) :
  other_keys fss <> [] ->
  exists ys,
    walk fss "" None =
      (ys, Some (TypeError "unsupported operand type(s) for -: 'NoneType' and 'int'")) /\
    length ys = match lookup_fs fss "default" with
                | Some d => length (fs_walk d "" None)
                | None => 0%nat
                end.
Proof.
  intros Hother.
  assert (Hm : walk_mounts fss None =
               ([], Some (TypeError "unsupported operand type(s) for -: 'NoneType' and 'int'"))).
  { unfold other_keys in Hother. induction fss as [|[k fs] fss IH]; [done|].
    simpl in *. destruct (String.eqb k "default"); simpl in *; [by apply IH|done]. }
  unfold walk. simpl. rewrite Hm. eexists. split; [reflexivity|].
  rewrite app_nil_r. destruct (lookup_fs fss "default"); [|done].
  by rewrite length_map.
Qed.

End RoutingIsolation.

Lemma walk_root_without_maxdepth_raises_witness :
  exists ys,
    Nested.walk Examples.mounts_ab "" None =
      (ys, Some (TypeError "unsupported operand type(s) for -: 'NoneType' and 'int'")) /\
    length ys = length (fs_walk Examples.rooted "" None).
Proof.
  apply (walk_root_without_maxdepth_raises Examples.mounts_ab). discriminate.
Defined.

(** ** The router: reads under other mounts *)

Section RoutingReads.
Import Nested NestedOps.
Context {FS : Type} `{FileSystemOps FS}.

Lemma update_fs_has_key (fss : @mounts FS) k fs' k0 :
  has_key (update_fs fss k fs') k0 = has_key fss k0.
Proof.
  unfold has_key. induction fss as [|[k1 fs] fss IH]; [done|].
  simpl. destruct (String.eqb_spec k1 k) as [->|Hk]; simpl.
  - by destruct (String.eqb k k0).
  - by destruct (String.eqb k1 k0).
Qed.

Lemma on_mount_has_key {A} (fss : @mounts FS) k (f : FS -> FS * result A) k0 :
  has_key (fst (on_mount k f fss)) k0 = has_key fss k0.
Proof.
  unfold on_mount. destruct (lookup_fs fss k) as [fs|]; [|done].
  destruct (f fs) as [fs' r]. simpl. apply update_fs_has_key.
Qed.

(** Resolution only looks at the keys of the mount table. *)
Lemma get_filesystem_keys (fss fss' : @mounts FS) p :
  (forall k, has_key fss' k = has_key fss k) ->
  _get_filesystem fss' p = _get_filesystem fss p.
Proof.
  intros Hk. unfold _get_filesystem, subscript. rewrite !Hk.
  destruct (Py.split1 p) as [|x [|y [|]]]; try done; by rewrite !Hk.
Qed.

(** X25. Writing under one mount does not change what is seen under
    another: when [p] and [q] resolve to different mounts, [exists(q)] and
    [read_text(q)] answer after [write_text(p, v)] (or [rm_file(p)]) as
    they did before, whether the change returned or raised. *)
Theorem other_mounts_read_the_same (fss : @mounts FS) (p q value : string)
    (k root nested k' root' nested' : string) :
  _get_filesystem fss p = Ok (k, root, nested) ->
  _get_filesystem fss q = Ok (k', root', nested') ->
  k <> k' ->
  forall fss',
    fss' = fst (write_text p value fss) \/ fss' = fst (rm_file p fss) ->
    snd (Nested.exists_ q fss') = snd (Nested.exists_ q fss) /\
    snd (read_text q fss') = snd (read_text q fss).
Proof.
  intros Hp Hq Hne fss' Hfss'.
  assert (Hshape : exists A (f : FS -> FS * result A), fss' = fst (on_mount k f fss)).
  { destruct Hfss' as [->| ->]; unfold write_text, rm_file, bind, resolve;
      rewrite Hp; eauto. }
  destruct Hshape as (A & f & ->).
  assert (Hres : _get_filesystem (fst (on_mount k f fss)) q = Ok (k', root', nested')).
  { rewrite <- Hq. apply get_filesystem_keys. intros k0. apply on_mount_has_key. }
  assert (Hlk : lookup_fs (fst (on_mount k f fss)) k' = lookup_fs fss k').
  { apply on_mount_isolated. by intros ->. }
  unfold Nested.exists_, read_text, bind, resolve, ask_mount.
  rewrite Hres, Hq, Hlk. destruct (lookup_fs fss k') as [fs|]; [|done].
  simpl. by destruct (fs_read_text fs nested').
Qed.

End RoutingReads.

Lemma other_mounts_read_the_same_witness :
  snd (Nested.exists_ "b/d/z" (fst (NestedOps.write_text "a/d/x" "v" Examples.mounts_ab))) =
    snd (Nested.exists_ "b/d/z" Examples.mounts_ab) /\
  snd (NestedOps.read_text "b/d/z" (fst (NestedOps.write_text "a/d/x" "v" Examples.mounts_ab))) =
    snd (NestedOps.read_text "b/d/z" Examples.mounts_ab).
Proof.
  apply (other_mounts_read_the_same Examples.mounts_ab "a/d/x" "b/d/z" "v"
           "a" "a" "d/x" "b" "b" "d/z").
  - reflexivity.
  - reflexivity.
  - discriminate.
  - left. reflexivity.
Defined.

(** ** The storage adapter *)

Section StorageInit.
Import Storage.

Lemma keys_filter (g : string -> bool) (d : Py.dict) :
  map fst (List.filter (fun kv => g (fst kv)) d) = List.filter g (map fst d).
Proof.
  induction d as [|[k v] d IH]; [done|].
  simpl. destruct (g k); simpl; by rewrite IH.
Qed.

Lemma keys_without_absent (d : Py.dict) key :
  Py.dict_get d key = None ->
  List.filter (fun k => negb (String.eqb k key)) (map fst d) = map fst d.
Proof.
  induction d as [|[k v] d IH]; [done|].
  simpl. destruct (String.eqb k key); [done|]. simpl. intros Hget. by rewrite IH.
Qed.

(** The keys left by [pop] are the keys other than the popped one. *)
Lemma pop_keys d key default :
  Py.dict_keys (snd (pop d key default)) =
    List.filter (fun k => negb (String.eqb k key)) (Py.dict_keys d).
Proof.
  unfold pop, Py.dict_keys. destruct (Py.dict_get d key) eqn:Hget; simpl.
  - apply (keys_filter (fun k => negb (String.eqb k key))).
  - symmetry. by apply keys_without_absent.
Qed.

Lemma pop_keeps_key d key default k :
  In k (Py.dict_keys d) -> String.eqb k key = false ->
  In k (Py.dict_keys (snd (pop d key default))).
Proof.
  intros Hin Hne. rewrite pop_keys. apply filter_In. by rewrite Hne.
Qed.

Lemma dict_get_filter (d : Py.dict) key k :
  k <> key ->
  Py.dict_get (List.filter (fun kv => negb (String.eqb (fst kv) key)) d) k =
    Py.dict_get d k.
Proof.
  intros Hne. induction d as [|[k0 v] d IH]; [done|].
  simpl. destruct (String.eqb_spec k0 key) as [->|Hk0]; simpl.
  - by destruct (String.eqb_spec key k) as [->|].
  - by rewrite IH.
Qed.

Lemma pop_get_other d key default k :
  k <> key -> Py.dict_get (snd (pop d key default)) k = Py.dict_get d k.
Proof.
  intros Hne. unfold pop. destruct (Py.dict_get d key); [|done].
  by apply dict_get_filter.
Qed.

Lemma pop_absent d key default :
  Py.dict_get d key = None -> fst (pop d key default) = default.
Proof. unfold pop. by intros ->. Qed.

Context {S : Type}.

(** X26. A storage is only built from settings it knows: when [__init__]
    returns, every key of the settings is one of the six known ones,
    [storage_config] is among them and is what the filesystem was made
    from; and a storage built without [base_url] raises [TypeError] for
    every [url(name)]. *)
Theorem storage_settings_are_checked (get_filesystem : pyval -> result S)
    (settings : Py.dict) (self : FsspecStorage) (filesystem : S) :
  __init__ get_filesystem settings = inl (self, filesystem) ->
  (forall k, In k (Py.dict_keys settings) -> In k known_settings) /\
  (exists cfg, Py.dict_get settings "storage_config" = Some cfg /\
               get_filesystem cfg = Ok filesystem) /\
  (Py.dict_get settings "base_url" = None ->
   forall name, url self name = Raise (TypeError "unsupported operand type(s) for +")).
Proof.
  unfold __init__.
  destruct (pop settings "location" _) as [v1 d1] eqn:E1.
  destruct (pop d1 "base_url" _) as [v2 d2] eqn:E2.
  destruct (pop d2 "file_permissions_mode" _) as [v3 d3] eqn:E3.
  destruct (pop d3 "directory_permissions_mode" _) as [v4 d4] eqn:E4.
  destruct (pop d4 "allow_overwrite" _) as [v5 d5] eqn:E5.
  destruct (Py.dict_get d5 "storage_config") as [cfg|] eqn:Hcfg; [|done].
  destruct (pop d5 "storage_config" _) as [v6 d6] eqn:E6.
  destruct (get_filesystem v6) as [fs|e] eqn:Hfs; [|done].
  destruct d6 as [|kv d6]; [|done]. simpl. intros [= <- <-].
  assert (Hd1 : d1 = snd (pop settings "location" (VStr ""))) by by rewrite E1.
  assert (Hd2 : d2 = snd (pop d1 "base_url" VNone)) by by rewrite E2.
  assert (Hd3 : d3 = snd (pop d2 "file_permissions_mode" VNone)) by by rewrite E3.
  assert (Hd4 : d4 = snd (pop d3 "directory_permissions_mode" VNone)) by by rewrite E4.
  assert (Hd5 : d5 = snd (pop d4 "allow_overwrite" (VBool true))) by by rewrite E5.
  assert (Hd6 : [] = snd (pop d5 "storage_config" VNone)) by by rewrite E6.
  split; [|split].
  - intros k Hk. unfold known_settings.
    destruct (String.eqb_spec k "location") as [->|N1]; [simpl; auto|].
    destruct (String.eqb_spec k "base_url") as [->|N2]; [simpl; auto|].
    destruct (String.eqb_spec k "file_permissions_mode") as [->|N3]; [simpl; auto|].
    destruct (String.eqb_spec k "directory_permissions_mode") as [->|N4]; [simpl; auto|].
    destruct (String.eqb_spec k "allow_overwrite") as [->|N5]; [simpl; auto 10|].
    destruct (String.eqb_spec k "storage_config") as [->|N6]; [simpl; auto 10|].
    exfalso.
    assert (Hin : In k (Py.dict_keys [])); [|done].
    rewrite Hd6. apply pop_keeps_key; [|by apply String.eqb_neq].
    rewrite Hd5. apply pop_keeps_key; [|by apply String.eqb_neq].
    rewrite Hd4. apply pop_keeps_key; [|by apply String.eqb_neq].
    rewrite Hd3. apply pop_keeps_key; [|by apply String.eqb_neq].
    rewrite Hd2. apply pop_keeps_key; [|by apply String.eqb_neq].
    rewrite Hd1. apply pop_keeps_key; [done|by apply String.eqb_neq].
  - exists cfg. split.
    + rewrite <- Hcfg, Hd5, Hd4, Hd3, Hd2, Hd1. by rewrite !pop_get_other.
    + unfold pop in E6. rewrite Hcfg in E6. by injection E6 as <- _.
  - intros Hbase name. unfold url. simpl.
    assert (Hv2 : v2 = fst (pop d1 "base_url" VNone)) by by rewrite E2.
    rewrite Hv2, pop_absent; [done|].
    rewrite Hd1. by rewrite pop_get_other.
Qed.

End StorageInit.

Section StorageOnOverlay.
Import Storage.
Context {FS : Type} `{FileSystemOps FS}.

(** X27. A storage whose filesystem is the overlay can neither delete
    nor replace a file: [delete(name)] calls the non-recursive [rm] and
    always raises, so [_save] with a true [allow_overwrite] raises on
    every name that exists, before anything is written. *)
Theorem storage_on_overlay_cannot_replace (parent_of : string -> string)
    (self : FsspecStorage) (w : Transparent.overlay FS) (name content : string) :
  PyBool.truthy (allow_overwrite self) = true ->
  Transparent.exists_ w name = true ->
  (exists e, delete (H := overlay_fs parent_of) name w = (w, Raise e)) /\
  (exists e, _save (H := overlay_fs parent_of) self name content w = (w, Raise e)).
Proof.
  intros Hallow Hex.
  destruct (rm_not_recursive_raises w name) as [e He].
  split; [by exists e|]. exists e. change (TransparentWrite.rm name false None w)
    with (delete (H := overlay_fs parent_of) name w) in He.
  unfold _save, exists_, delete, bind. rewrite Hallow.
  cbn [sf_exists sf_rm overlay_fs]. rewrite Hex.
  change (TransparentWrite.rm name false None w) with (delete (H := overlay_fs parent_of) name w).
  by rewrite He.
Qed.

End StorageOnOverlay.

Lemma storage_settings_are_checked_witness :
  exists self,
    Storage.__init__ Examples3.factory Examples3.settings_ok =
      inl (self, Examples.overlay_fresh) /\
    forall name,
      Storage.url self name = Raise (TypeError "unsupported operand type(s) for +").
Proof.
  eexists. split; [reflexivity|].
  eapply (storage_settings_are_checked Examples3.factory Examples3.settings_ok);
    reflexivity.
Defined.

Lemma storage_on_overlay_cannot_replace_witness :
  exists e,
    Storage._save (H := Storage.overlay_fs MemFS.parent_of)
      {| Storage.location := VStr ""; Storage.base_url := VNone;
         Storage.file_permissions_mode := VNone;
         Storage.directory_permissions_mode := VNone;
         Storage.allow_overwrite := VBool true |}
      "d/x" "new" Examples.overlay_fresh = (Examples.overlay_fresh, Raise e).
Proof.
  eapply (storage_on_overlay_cannot_replace MemFS.parent_of); reflexivity.
Defined.
